(** * Rocket simulation: a shallow embedding of RocketSimulationAlyGaber.py

    Numbers.  The program computes with Python floats (and ints that are
    promoted to floats).  In the main reading they are embedded as the real
    numbers they stand for ([R]); rounding error of the binary format,
    overflow, infinities and NaN are left out of it.  [math.pi],
    [math.sqrt], [math.sin] and [math.e ** x] are the corresponding
    functions of the real-number library.  [round(x, 2)] is rounding to the
    nearest hundredth, ties to the even hundredth.

    Two further readings cover what the main one leaves out.  Module
    [Ranged] reads the geometry, fuel and cost functions with the range of
    the format: results outside it are infinities, and the power operator
    raises [OverflowError].  Module [Binary64] reads the accumulators of
    the loader in binary64 arithmetic, where a sum followed by a difference
    does not give the first number back.

    Faults.  A Python exception is an explicit [Raise] result: division by
    zero, a power that overflows, a line that [float()] cannot parse, and
    [input()] on an exhausted console.

    Console.  [input()] reads from a list of lines and [print] appends to a
    list of printed values. *)

From Stdlib Require Import Reals Lra Lia ZArith List String Bool Zfloor Machin.
From Stdlib Require PrimFloat.
Import ListNotations.
Open Scope R_scope.

(** ** Comparisons as booleans *)

Definition Rltb (x y : R) : bool := if Rlt_dec x y then true else false.
Definition Rleb (x y : R) : bool := if Rle_dec x y then true else false.
Definition Rgtb (x y : R) : bool := Rltb y x.
Definition Rgeb (x y : R) : bool := Rleb y x.
Definition Reqb (x y : R) : bool := if Req_dec_T x y then true else false.

Infix "<?" := Rltb (at level 70, no associativity) : R_scope.
Infix "<=?" := Rleb (at level 70, no associativity) : R_scope.
Infix ">?" := Rgtb (at level 70, no associativity) : R_scope.
Infix ">=?" := Rgeb (at level 70, no associativity) : R_scope.
Infix "=?" := Reqb (at level 70, no associativity) : R_scope.

(** ** Python's [round(x, 2)] and [int(x)] *)

(** Nearest integer, ties to even. *)
Definition round_half_even (y : R) : Z :=
  let f := Zfloor y in
  let d := y - IZR f in
  if d <? 1 / 2 then f
  else if 1 / 2 <? d then (f + 1)%Z
  else if Z.even f then f else (f + 1)%Z.

(** [round(x, 2)] *)
Definition round2 (x : R) : R := IZR (round_half_even (x * 100)) / 100.

(** [int(x)]: truncation toward zero. *)
Definition py_int (x : R) : Z :=
  if 0 <=? x then Zfloor x else Zceil x.

(** ** Exceptions *)

Inductive exn : Set :=
  ZeroDivisionError | OverflowError | ValueError | EOFError.

Inductive result (A : Type) : Type :=
| Ok (a : A)
| Raise (e : exn).
Arguments Ok {A} a.
Arguments Raise {A} e.

Definition bind {A B : Type} (m : result A) (k : A -> result B) : result B :=
  match m with
  | Ok a => k a
  | Raise e => Raise e
  end.

Declare Scope result_scope.
Delimit Scope result_scope with result.
Notation "x <- m ;; k" := (bind m (fun x => k))
  (at level 61, m at next level, right associativity) : result_scope.

(** [x / y] on floats. *)
Definition py_div (x y : R) : result R :=
  if y =? 0 then Raise ZeroDivisionError else Ok (x / y).

(** ** Python values that reach a comparison with [True] *)

Inductive pyval : Type :=
| PyNone
| PyBool (b : bool)
| PyInt (n : Z)
| PyFloat (x : R)
| PyStr (s : string).

(** [v == True]: [True] is the integer 1 for numeric comparison; a string or
    [None] is never equal to it. *)
Definition py_eq_True (v : pyval) : bool :=
  match v with
  | PyNone => false
  | PyBool b => b
  | PyInt n => (n =? 1)%Z
  | PyFloat x => x =? 1
  | PyStr _ => false
  end.


(** ** Constants *)

Definition FEET_TO_METER : R := 3.28.
Definition DENSITY_OF_ROCKET : R := 1.225.
Definition ROCKET_SMALL_MASS : R := 100000.
Definition ROCKET_MEDIUM_MASS : R := 400000.
Definition SMALL_ROCKET_FUEL_ECON : R := 1360.
Definition MED_ROCKET_FUEL_ECON : R := 2000.
Definition LARGE_ROCKET_FUEL_ECON : R := 2721.
Definition METAL_COST : R := 5.
Definition FUEL_COST : R := 6.1.
Definition TAX : R := 1.15.
Definition WEIGHT_THRESHOLD_MAXIMUM : R := 0.05.
Definition VOLUME_THRESHOLD_MAXIMUM : R := 0.4.
Definition MAX_BOX_WEIGHT : R := 500.
Definition MIN_BOX_WEIGHT : R := 20.
Definition MIN_BOX_VOLUME : R := 0.125.
Definition GRAVITY_CONSTANT : R := 9.81.

(** [math.e] *)
Definition math_e : R := exp 1.

(** ** Geometry, mass, fuel and cost *)

Definition feet_to_meter (feet : R) : R :=
  let meter_answer := round2 (feet * FEET_TO_METER) in
  meter_answer.

Definition rocket_volume (radius height_cone height_cyl : R) : R :=
  let volume_cone := (PI * (radius ^ 2)) * (height_cone / 3) in
  let volume_cyl := PI * (radius ^ 2) * height_cyl in
  round2 (volume_cone + volume_cyl).

Definition rocket_area (radius height_cone height_cyl : R) : R :=
  let area_cone := PI * radius * (radius + sqrt (height_cone ^ 2 + radius ^ 2)) in
  let area_cyl := 2 * PI * radius * (height_cyl + radius) in
  let area_circle := area_cone + area_cyl - 2 * (PI * radius ^ 2) in
  round2 area_circle.

Definition rocket_mass (radius height_cone height_cyl : R) : R :=
  let rocket_density :=
    rocket_volume radius height_cone height_cyl * DENSITY_OF_ROCKET in
  round2 rocket_density.

Definition rocket_fuel
    (radius height_cone height_cyl velocity_e velocity_i flight_time : R)
    : result R :=
  (q <- py_div velocity_i velocity_e ;;
  let total_fuel :=
    rocket_mass radius height_cone height_cyl * (Rpower math_e q - 1) in
  let total_fuel :=
    if rocket_mass radius height_cone height_cyl <? ROCKET_SMALL_MASS then
      total_fuel + SMALL_ROCKET_FUEL_ECON * flight_time
    else if rocket_mass radius height_cone height_cyl <? ROCKET_MEDIUM_MASS then
      total_fuel + MED_ROCKET_FUEL_ECON * flight_time
    else
      total_fuel + LARGE_ROCKET_FUEL_ECON * flight_time in
  Ok (round2 total_fuel))%result.

Definition calculate_cost
    (radius height_cone height_cyl velocity_e velocity_i flight_time : R)
    (tax : pyval) : result R :=
  let metal_cost := rocket_area radius height_cone height_cyl * METAL_COST in
  (fuel <- rocket_fuel radius height_cone height_cyl
             velocity_e velocity_i flight_time ;;
  let fuel_cost := fuel * FUEL_COST in
  let cost :=
    if py_eq_True tax then (metal_cost + fuel_cost) * TAX
    else metal_cost + fuel_cost in
  Ok (round2 cost))%result.

Definition compute_storage_space (radius height_cyl : R) : R * R * R :=
  let storage_length := sqrt 2 * radius in
  let storage_width := storage_length in
  let storage_height := height_cyl / 2 in
  (round2 storage_width, round2 storage_length, round2 storage_height).

(** ** The console *)

(** A line typed at a prompt, by what the program can tell of it: the
    literal text Done, a text that [float()] parses to [x], or any other
    text. *)
Inductive line : Type :=
| Done
| Num (x : R)
| Junk.

(** What [print] writes. *)
Inductive printed : Type :=
| Text (s : string)
| Number (x : R).

Record console : Type := mkConsole {
  stdin : list line;
  stdout : list printed
}.

(** Computations that read and print, and may raise. *)
Definition io (A : Type) : Type := console -> result A * console.

Definition ret {A : Type} (a : A) : io A := fun c => (Ok a, c).

Definition raise {A : Type} (e : exn) : io A := fun c => (Raise e, c).

Definition io_bind {A B : Type} (m : io A) (k : A -> io B) : io B :=
  fun c =>
    match m c with
    | (Ok a, c') => k a c'
    | (Raise e, c') => (Raise e, c')
    end.

Declare Scope io_scope.
Delimit Scope io_scope with io.
Notation "x <- m ;; k" := (io_bind m (fun x => k))
  (at level 61, m at next level, right associativity) : io_scope.
Notation "m ;; k" := (io_bind m (fun _ => k))
  (at level 61, right associativity) : io_scope.

Definition lift {A : Type} (r : result A) : io A := fun c => (r, c).

(** [input(prompt)]: the next line; the prompt text is not recorded. *)
Definition input : io line :=
  fun c =>
    match stdin c with
    | [] => (Raise EOFError, c)
    | l :: rest => (Ok l, mkConsole rest (stdout c))
    end.

Definition print (p : printed) : io unit :=
  fun c => (Ok tt, mkConsole (stdin c) (stdout c ++ [p])).

(** [float(s)] on a line. *)
Definition float (l : line) : io R :=
  match l with
  | Num x => ret x
  | Done | Junk => raise ValueError
  end.

(** ** Loading the rocket *)

(** The four variables the loop assigns. *)
Record load_state : Type := mkLoad {
  total_weight : R;
  total_volume : R;
  weight_of_all_items : R;
  volume_of_all_items : R
}.

(** How one pass through the loop body ends. *)
Inductive flow : Type :=
| Next (st : load_state)
| Return (v : pyval).

Section LoadLoop.

Variables rocket_initial_weight storage_volume : R.

(** The [while] condition. *)
Definition loop_test (st : load_state) : bool :=
  (total_weight st <?
     rocket_initial_weight + rocket_initial_weight * WEIGHT_THRESHOLD_MAXIMUM)
  && (total_volume st <?
        storage_volume + storage_volume * VOLUME_THRESHOLD_MAXIMUM).

(** The body of the [while]. *)
Definition loop_body (st : load_state) : io flow :=
  (if rocket_initial_weight * WEIGHT_THRESHOLD_MAXIMUM
       - weight_of_all_items st <? MIN_BOX_WEIGHT then
     print (Text "No more items can be added") ;;
     ret (Return (PyFloat (round2 (total_weight st))))
   else if storage_volume * VOLUME_THRESHOLD_MAXIMUM
            - volume_of_all_items st <? MIN_BOX_VOLUME then
     print (Text "No more items can be added") ;;
     ret (Return (PyFloat (round2 (total_weight st))))
   else
     item_weight <- input ;;
     match item_weight with
     | Done => ret (Return (PyFloat (round2 (total_weight st))))
     | _ =>
       item_weight <- float item_weight ;;
       item_width <- (l <- input ;; float l) ;;
       item_length <- (l <- input ;; float l) ;;
       item_height <- (l <- input ;; float l) ;;
       let item_volume := item_width * item_length * item_height in
       let weight_of_all_items := weight_of_all_items st + item_weight in
       let volume_of_all_items := volume_of_all_items st + item_volume in
       if (item_weight <? MIN_BOX_WEIGHT) || (item_weight >? MAX_BOX_WEIGHT)
          || (weight_of_all_items >?
                rocket_initial_weight * WEIGHT_THRESHOLD_MAXIMUM) then
         let weight_of_all_items := weight_of_all_items - item_weight in
         print (Text "Item could not be added... please try again...") ;;
         ret (Next (mkLoad (total_weight st) (total_volume st)
                      weight_of_all_items volume_of_all_items))
       else if (item_volume <? MIN_BOX_VOLUME)
               || (volume_of_all_items >?
                     storage_volume * VOLUME_THRESHOLD_MAXIMUM) then
         let volume_of_all_items := volume_of_all_items - item_volume in
         print (Text "Item could not be added... please try again...") ;;
         ret (Next (mkLoad (total_weight st) (total_volume st)
                      weight_of_all_items volume_of_all_items))
       else
         let total_weight := total_weight st + weight_of_all_items in
         let total_volume := total_volume st + volume_of_all_items in
         ret (Next (mkLoad total_weight total_volume
                      weight_of_all_items volume_of_all_items))
     end)%io.

(** The [while] loop followed by the end of the function, where Python
    returns [None].  [fuel] bounds the number of passes; the answer [None]
    of type [option] says that it ran out. *)
Fixpoint load_loop (fuel : nat) (st : load_state) : io (option pyval) :=
  match fuel with
  | O => ret None
  | S fuel' =>
    if loop_test st then
      (f <- loop_body st ;;
       match f with
       | Next st' => load_loop fuel' st'
       | Return v => ret (Some v)
       end)%io
    else ret (Some PyNone)
  end.

(** The tests of the loop body as propositions. *)

Definition no_room (st : load_state) : Prop :=
  rocket_initial_weight * WEIGHT_THRESHOLD_MAXIMUM - weight_of_all_items st
    < MIN_BOX_WEIGHT
  \/ storage_volume * VOLUME_THRESHOLD_MAXIMUM - volume_of_all_items st
       < MIN_BOX_VOLUME.

Definition weight_rejected (st : load_state) (item_weight : R) : Prop :=
  item_weight < MIN_BOX_WEIGHT \/ item_weight > MAX_BOX_WEIGHT
  \/ weight_of_all_items st + item_weight
       > rocket_initial_weight * WEIGHT_THRESHOLD_MAXIMUM.

Definition volume_rejected (st : load_state) (item_volume : R) : Prop :=
  item_volume < MIN_BOX_VOLUME
  \/ volume_of_all_items st + item_volume
       > storage_volume * VOLUME_THRESHOLD_MAXIMUM.

(** The loop arrives at [st'] with console [c'] after some passes begun at
    [st] with console [c]. *)
Inductive reaches (st : load_state) (c : console)
    : load_state -> console -> Prop :=
| reaches_refl : reaches st c st c
| reaches_pass st1 c1 st2 c2 :
    reaches st c st1 c1 ->
    loop_test st1 = true ->
    loop_body st1 c1 = (Ok (Next st2), c2) ->
    reaches st c st2 c2.

End LoadLoop.

(** The storage volume as [load_rocket] computes it. *)
Definition storage_volume_of (radius height_cyl : R) : R :=
  let '(storage_width, storage_length, storage_height) :=
    compute_storage_space radius height_cyl in
  round2 (storage_width * storage_length * storage_height).

(** The variables as [load_rocket] sets them before the loop. *)
Definition load_init (rocket_initial_weight storage_volume : R) : load_state :=
  mkLoad rocket_initial_weight storage_volume 0 0.

Definition load_rocket (rocket_initial_weight radius height_cyl : R)
    : io (option pyval) :=
  let '(storage_width, storage_length, storage_height) :=
    compute_storage_space radius height_cyl in
  let storage_volume := storage_width * storage_length * storage_height in
  let storage_volume := round2 storage_volume in
  let total_weight := rocket_initial_weight in
  let total_volume := storage_volume in
  let weight_of_all_items := 0 in
  let volume_of_all_items := 0 in
  fun c =>
    load_loop rocket_initial_weight storage_volume (S (List.length (stdin c)))
      (mkLoad total_weight total_volume weight_of_all_items volume_of_all_items)
      c.

(** ** The trajectory *)

(** [range(a, b)] *)
Definition range (a b : Z) : list Z :=
  map (fun i => (a + Z.of_nat i)%Z) (seq 0 (Z.to_nat (b - a))).

Section Trajectory.

Variables interval velocity_i angle : R.

Definition height_at (time : Z) : R :=
  let time := IZR time * interval in
  (-0.5 * GRAVITY_CONSTANT * (time ^ 2)) + (velocity_i * sin angle * time).

(** The [for] loop over the remaining steps. *)
Fixpoint sim_loop (steps : list Z) : io pyval :=
  match steps with
  | [] => ret PyNone
  | time :: rest =>
    let height := height_at time in
    if height >=? 0 then
      (print (Number (round2 height)) ;; sim_loop rest)%io
    else ret PyNone
  end.

End Trajectory.

Definition projectile_sim (simulation_time interval velocity_i angle : R)
    : io pyval :=
  (q <- lift (py_div simulation_time interval) ;;
   sim_loop interval velocity_i angle (range 0 (py_int q + 1)))%io.

(** ** The session *)

Section Session.

(** [str(v)], the text Python prints for a value, and [int(s)] on a typed
    line are taken as they come from Python. *)
Variable py_str : pyval -> string.
Variable int_of_line : line -> result Z.

Definition rocket_main : io (option pyval) :=
  (print (Text "Welcome to the Rocket Simulation!") ;;
   radius <- (l <- input ;; x <- float l ;; ret (feet_to_meter x)) ;;
   height_cone <- (l <- input ;; x <- float l ;; ret (feet_to_meter x)) ;;
   height_cyl <- (l <- input ;; x <- float l ;; ret (feet_to_meter x)) ;;
   velocity_e <- (l <- input ;; float l) ;;
   velocity_i <- (l <- input ;; float l) ;;
   angle <- (l <- input ;; float l) ;;
   flight_time <- (l <- input ;; float l) ;;
   tax <- (l <- input ;; lift (int_of_line l)) ;;
   cost <- lift (calculate_cost radius height_cone height_cyl velocity_e
                   velocity_i flight_time (PyInt tax)) ;;
   print (Text ("This trip will cost $" ++ py_str (PyFloat cost))) ;;
   print (Text "Now loading the rocket:") ;;
   let rocket_initial_weight := rocket_mass radius height_cone height_cyl in
   loaded <- load_rocket rocket_initial_weight radius height_cyl ;;
   match loaded with
   | None => ret None
   | Some weight =>
     print (Text ("The rocket and its equipment will weigh "
                  ++ py_str weight ++ "kg")) ;;
     simulation_time <- (l <- input ;; float l) ;;
     interval <- (l <- input ;; float l) ;;
     print (Text "Now simulating the rocket trajectory:") ;;
     projectile_sim simulation_time interval velocity_i angle ;;
     ret (Some PyNone)
   end)%io.

End Session.

(** ** Counting items in a run without weight rejections *)

(** [kept_reaches w sv st c n st' c']: the loop goes from [st] to [st'] in
    [n] passes, each of which read an item that the weight check let
    through (the item was accepted, or rejected for its volume). *)
Inductive kept_reaches (w sv : R) (st : load_state) (c : console)
    : nat -> load_state -> console -> Prop :=
| kept_refl : kept_reaches w sv st c 0 st c
| kept_passed n st1 c1 st2 c2 item_weight rest :
    kept_reaches w sv st c n st1 c1 ->
    loop_test w sv st1 = true ->
    loop_body w sv st1 c1 = (Ok (Next st2), c2) ->
    stdin c1 = Num item_weight :: rest ->
    ~ weight_rejected w st1 item_weight ->
    kept_reaches w sv st c (S n) st2 c2.

(** [loaded_reaches w sv st c n st' c']: the loop goes from [st] to [st'] in
    passes that each read an item that the weight check let through, [n] of
    which were accepted; the others were rejected for their volume. *)
Inductive loaded_reaches (w sv : R) (st : load_state) (c : console)
    : nat -> load_state -> console -> Prop :=
| loaded_refl : loaded_reaches w sv st c 0 st c
| loaded_rejected n st1 c1 st2 c2
    item_weight item_width item_length item_height rest :
    loaded_reaches w sv st c n st1 c1 ->
    loop_test w sv st1 = true ->
    loop_body w sv st1 c1 = (Ok (Next st2), c2) ->
    stdin c1 = Num item_weight :: Num item_width :: Num item_length
                 :: Num item_height :: rest ->
    ~ weight_rejected w st1 item_weight ->
    volume_rejected sv st1 (item_width * item_length * item_height) ->
    loaded_reaches w sv st c n st2 c2
| loaded_accepted n st1 c1 st2 c2
    item_weight item_width item_length item_height rest :
    loaded_reaches w sv st c n st1 c1 ->
    loop_test w sv st1 = true ->
    loop_body w sv st1 c1 = (Ok (Next st2), c2) ->
    stdin c1 = Num item_weight :: Num item_width :: Num item_length
                 :: Num item_height :: rest ->
    ~ weight_rejected w st1 item_weight ->
    ~ volume_rejected sv st1 (item_width * item_length * item_height) ->
    loaded_reaches w sv st c (S n) st2 c2.

(** ** The float range

    A second reading of the geometry, fuel and cost functions, for their
    faults.  A value is a real number inside the range of the format, an
    infinity or NaN.  An operation is exact when its result is inside the
    range; otherwise it gives an infinity, or raises [OverflowError] where
    Python does (the power operator).  The arguments of the functions are
    finite. *)

Module Ranged.

(** The least magnitude that rounds to an infinity: [2^1024 - 2^970]. *)
Definition FLOAT_OVERFLOW : R := 2 ^ 1024 - 2 ^ 970.

Inductive pyfloat : Type :=
| Finite (x : R)
| PosInf
| NegInf
| NaN.

(** The float for the exact result [x]. *)
Definition to_float (x : R) : pyfloat :=
  if FLOAT_OVERFLOW <=? Rabs x then (if 0 <? x then PosInf else NegInf)
  else Finite x.

Definition fopp (a : pyfloat) : pyfloat :=
  match a with
  | Finite x => Finite (- x)
  | PosInf => NegInf
  | NegInf => PosInf
  | NaN => NaN
  end.

(** [a + b] *)
Definition fadd (a b : pyfloat) : pyfloat :=
  match a, b with
  | Finite x, Finite y => to_float (x + y)
  | NaN, _ | _, NaN => NaN
  | PosInf, NegInf | NegInf, PosInf => NaN
  | PosInf, _ | _, PosInf => PosInf
  | NegInf, _ | _, NegInf => NegInf
  end.

(** [a - b] *)
Definition fsub (a b : pyfloat) : pyfloat := fadd a (fopp b).

(** An infinity times the finite [x]. *)
Definition scale_inf (inf : pyfloat) (x : R) : pyfloat :=
  if x =? 0 then NaN else if 0 <? x then inf else fopp inf.

(** [a * b] *)
Definition fmul (a b : pyfloat) : pyfloat :=
  match a, b with
  | Finite x, Finite y => to_float (x * y)
  | NaN, _ | _, NaN => NaN
  | Finite x, inf => scale_inf inf x
  | inf, Finite x => scale_inf inf x
  | PosInf, PosInf | NegInf, NegInf => PosInf
  | PosInf, NegInf | NegInf, PosInf => NegInf
  end.

(** [a < b] *)
Definition flt (a b : pyfloat) : bool :=
  match a, b with
  | Finite x, Finite y => x <? y
  | NaN, _ | _, NaN => false
  | _, NegInf => false
  | PosInf, _ => false
  | NegInf, _ => true
  | Finite _, PosInf => true
  end.

(** [round(a, 2)]: an infinity and NaN round to themselves. *)
Definition fround2 (a : pyfloat) : pyfloat :=
  match a with
  | Finite x => Finite (round2 x)
  | _ => a
  end.

(** [x ** 2] *)
Definition py_pow2 (x : R) : result pyfloat :=
  if FLOAT_OVERFLOW <=? x * x then Raise OverflowError
  else Ok (Finite (x * x)).

(** [math.e ** q] *)
Definition py_pow_e (q : pyfloat) : result pyfloat :=
  match q with
  | Finite x =>
    if FLOAT_OVERFLOW <=? Rpower math_e x then Raise OverflowError
    else Ok (Finite (Rpower math_e x))
  | PosInf => Ok PosInf
  | NegInf => Ok (Finite 0)
  | NaN => Ok NaN
  end.

(** [x / y] *)
Definition py_div (x y : R) : result pyfloat :=
  if y =? 0 then Raise ZeroDivisionError else Ok (to_float (x / y)).

(** [math.sqrt(a)] *)
Definition math_sqrt (a : pyfloat) : result pyfloat :=
  match a with
  | Finite x => if x <? 0 then Raise ValueError else Ok (Finite (sqrt x))
  | PosInf => Ok PosInf
  | NegInf => Raise ValueError
  | NaN => Ok NaN
  end.

Definition rocket_volume (radius height_cone height_cyl : R)
    : result pyfloat :=
  (r2 <- py_pow2 radius ;;
   let volume_cone :=
     fmul (fmul (Finite PI) r2) (to_float (height_cone / 3)) in
   r2 <- py_pow2 radius ;;
   let volume_cyl := fmul (fmul (Finite PI) r2) (Finite height_cyl) in
   Ok (fround2 (fadd volume_cone volume_cyl)))%result.

Definition rocket_area (radius height_cone height_cyl : R)
    : result pyfloat :=
  (hc2 <- py_pow2 height_cone ;;
   r2 <- py_pow2 radius ;;
   root <- math_sqrt (fadd hc2 r2) ;;
   let area_cone :=
     fmul (fmul (Finite PI) (Finite radius)) (fadd (Finite radius) root) in
   let area_cyl :=
     fmul (fmul (fmul (Finite 2) (Finite PI)) (Finite radius))
       (fadd (Finite height_cyl) (Finite radius)) in
   r2 <- py_pow2 radius ;;
   let area_circle :=
     fsub (fadd area_cone area_cyl) (fmul (Finite 2) (fmul (Finite PI) r2)) in
   Ok (fround2 area_circle))%result.

Definition rocket_mass (radius height_cone height_cyl : R)
    : result pyfloat :=
  (volume <- rocket_volume radius height_cone height_cyl ;;
   let rocket_density := fmul volume (Finite DENSITY_OF_ROCKET) in
   Ok (fround2 rocket_density))%result.

Definition rocket_fuel
    (radius height_cone height_cyl velocity_e velocity_i flight_time : R)
    : result pyfloat :=
  (mass <- rocket_mass radius height_cone height_cyl ;;
   q <- py_div velocity_i velocity_e ;;
   power <- py_pow_e q ;;
   let total_fuel := fmul mass (fsub power (Finite 1)) in
   total_fuel <-
     (mass <- rocket_mass radius height_cone height_cyl ;;
      if flt mass (Finite ROCKET_SMALL_MASS) then
        Ok (fadd total_fuel
              (fmul (Finite SMALL_ROCKET_FUEL_ECON) (Finite flight_time)))
      else
        mass <- rocket_mass radius height_cone height_cyl ;;
        if flt mass (Finite ROCKET_MEDIUM_MASS) then
          Ok (fadd total_fuel
                (fmul (Finite MED_ROCKET_FUEL_ECON) (Finite flight_time)))
        else
          Ok (fadd total_fuel
                (fmul (Finite LARGE_ROCKET_FUEL_ECON) (Finite flight_time)))) ;;
   Ok (fround2 total_fuel))%result.

Definition calculate_cost
    (radius height_cone height_cyl velocity_e velocity_i flight_time : R)
    (tax : pyval) : result pyfloat :=
  (area <- rocket_area radius height_cone height_cyl ;;
   let metal_cost := fmul area (Finite METAL_COST) in
   fuel <- rocket_fuel radius height_cone height_cyl
             velocity_e velocity_i flight_time ;;
   let fuel_cost := fmul fuel (Finite FUEL_COST) in
   let cost :=
     if py_eq_True tax then fmul (fadd metal_cost fuel_cost) (Finite TAX)
     else fadd metal_cost fuel_cost in
   Ok (fround2 cost))%result.

(** [math.e ** (velocity_i / velocity_e)] overflows: the quotient is a
    finite float and its power is out of the range. *)
Definition power_overflows (velocity_e velocity_i : R) : Prop :=
  Rabs (velocity_i / velocity_e) < FLOAT_OVERFLOW
  /\ FLOAT_OVERFLOW <= exp (velocity_i / velocity_e).

End Ranged.

(** ** The accumulators of the loader in binary64

    The arithmetic of the loop of [load_rocket] on the machine's floats:
    every sum, difference and product is rounded to the nearest binary64
    number, as Python does. *)

Module Binary64.

Import PrimFloat.
#[local] Set Warnings "-inexact-float".
#[local] Open Scope float_scope.

Definition WEIGHT_THRESHOLD_MAXIMUM : float := 0.05.
Definition VOLUME_THRESHOLD_MAXIMUM : float := 0.4.
Definition MAX_BOX_WEIGHT : float := 500.
Definition MIN_BOX_WEIGHT : float := 20.
Definition MIN_BOX_VOLUME : float := 0.125.

Record load_state : Set := mkLoad {
  total_weight : float;
  total_volume : float;
  weight_of_all_items : float;
  volume_of_all_items : float
}.

(** The four numbers typed for an item, as [float()] returns them. *)
Record item : Set := mkItem {
  item_weight : float;
  item_width : float;
  item_length : float;
  item_height : float
}.

Section LoadLoop.

Variables rocket_initial_weight storage_volume : float.

(** The [while] condition. *)
Definition loop_test (st : load_state) : bool :=
  (total_weight st <?
     rocket_initial_weight + rocket_initial_weight * WEIGHT_THRESHOLD_MAXIMUM)
  && (total_volume st <?
        storage_volume + storage_volume * VOLUME_THRESHOLD_MAXIMUM).

(** The body of the [while] in a pass that is answered with the item [it];
    [None] when the pass returns from the function without asking for
    it. *)
Definition loop_body (st : load_state) (it : item) : option load_state :=
  if rocket_initial_weight * WEIGHT_THRESHOLD_MAXIMUM
       - weight_of_all_items st <? MIN_BOX_WEIGHT then None
  else if storage_volume * VOLUME_THRESHOLD_MAXIMUM
            - volume_of_all_items st <? MIN_BOX_VOLUME then None
  else
    let item_weight := item_weight it in
    let item_volume := item_width it * item_length it * item_height it in
    let weight_of_all_items := weight_of_all_items st + item_weight in
    let volume_of_all_items := volume_of_all_items st + item_volume in
    if (item_weight <? MIN_BOX_WEIGHT) || (MAX_BOX_WEIGHT <? item_weight)
       || (rocket_initial_weight * WEIGHT_THRESHOLD_MAXIMUM
             <? weight_of_all_items) then
      let weight_of_all_items := weight_of_all_items - item_weight in
      Some (mkLoad (total_weight st) (total_volume st)
              weight_of_all_items volume_of_all_items)
    else if (item_volume <? MIN_BOX_VOLUME)
            || (storage_volume * VOLUME_THRESHOLD_MAXIMUM
                  <? volume_of_all_items) then
      let volume_of_all_items := volume_of_all_items - item_volume in
      Some (mkLoad (total_weight st) (total_volume st)
              weight_of_all_items volume_of_all_items)
    else
      let total_weight := total_weight st + weight_of_all_items in
      let total_volume := total_volume st + volume_of_all_items in
      Some (mkLoad total_weight total_volume
              weight_of_all_items volume_of_all_items).

(** The states in which the passes of the loop begin when the items typed
    are [items], followed by Done. *)
Fixpoint pass_starts (st : load_state) (items : list item)
    : list load_state :=
  if loop_test st then
    st :: match items with
          | [] => []
          | it :: rest =>
            match loop_body st it with
            | Some st' => pass_starts st' rest
            | None => []
            end
          end
  else [].

End LoadLoop.

(** The variables as [load_rocket] sets them before the loop. *)
Definition load_init (rocket_initial_weight storage_volume : float)
    : load_state :=
  mkLoad rocket_initial_weight storage_volume 0 0.

End Binary64.

(** ** Statements of the specification, in its own words *)

(** The mass-tiered addend of the fuel estimate. *)
Definition fuel_addend (mass flight_time : R) : R :=
  if mass <? 100000 then 1360 * flight_time
  else if (100000 <=? mass) && (mass <? 400000) then 2000 * flight_time
  else 2721 * flight_time.

(** The heights that are printed: each one rounded, up to the first
    negative one. *)
Fixpoint emitted (heights : list R) : list R :=
  match heights with
  | [] => []
  | h :: rest => if h <? 0 then [] else round2 h :: emitted rest
  end.

(** The height at [t = step * interval]. *)
Definition spec_height (interval vInitial angle : R) (step : Z) : R :=
  let t := IZR step * interval in
  -0.5 * 9.81 * t ^ 2 + vInitial * sin angle * t.

(** The heights printed for the steps [0 .. last]. *)
Definition trajectory (interval vInitial angle : R) (last : Z) : list R :=
  emitted (map (spec_height interval vInitial angle) (range 0 (last + 1))).

(** * Properties *)

(** ** Comparisons and rounding *)

Lemma Rltb_true_iff x y : (x <? y) = true <-> x < y.
Proof.
  unfold Rltb; destruct (Rlt_dec x y); split; intros; auto;
    try discriminate; contradiction.
Qed.
Lemma Rltb_false_iff x y : (x <? y) = false <-> y <= x.
Proof.
  unfold Rltb; destruct (Rlt_dec x y); split; intros; auto;
    try discriminate; lra.
Qed.
Lemma Rleb_true_iff x y : (x <=? y) = true <-> x <= y.
Proof.
  unfold Rleb; destruct (Rle_dec x y); split; intros; auto;
    try discriminate; contradiction.
Qed.
Lemma Rleb_false_iff x y : (x <=? y) = false <-> y < x.
Proof.
  unfold Rleb; destruct (Rle_dec x y); split; intros; auto;
    try discriminate; lra.
Qed.
Lemma Reqb_true_iff x y : (x =? y) = true <-> x = y.
Proof.
  unfold Reqb; destruct (Req_dec_T x y); split; intros; auto;
    try discriminate; contradiction.
Qed.
Lemma Reqb_false_iff x y : (x =? y) = false <-> x <> y.
Proof.
  unfold Reqb; destruct (Req_dec_T x y); split; intros; auto;
    try discriminate; contradiction.
Qed.

Lemma IZR_lt_succ (a b : Z) : IZR a < IZR b + 1 -> (a <= b)%Z.
Proof.
  intros H. rewrite <- plus_IZR in H. apply lt_IZR in H. lia.
Qed.

Lemma round_half_even_eq (y : R) (n : Z) :
  IZR n - 1 / 2 < y < IZR n + 1 / 2 -> round_half_even y = n.
Proof.
  intros [Hlo Hhi]. unfold round_half_even.
  pose proof (Zfloor_bound y) as [Hf1 Hf2].
  destruct (Rlt_dec (y - IZR (Zfloor y)) (1 / 2)) as [Hd | Hd].
  - rewrite (proj2 (Rltb_true_iff _ _) Hd).
    assert (Zfloor y <= n)%Z by (apply IZR_lt_succ; lra).
    assert (n <= Zfloor y)%Z by (apply IZR_lt_succ; lra).
    lia.
  - rewrite (proj2 (Rltb_false_iff _ _)) by lra.
    destruct (Rlt_dec (1 / 2) (y - IZR (Zfloor y))) as [Hd' | Hd'].
    + rewrite (proj2 (Rltb_true_iff _ _) Hd').
      assert (Zfloor y + 1 <= n)%Z by (apply IZR_lt_succ; rewrite plus_IZR; lra).
      assert (n <= Zfloor y + 1)%Z by (apply IZR_lt_succ; rewrite plus_IZR; lra).
      lia.
    + exfalso.
      assert (Zfloor y <= n - 1)%Z by (apply IZR_lt_succ; rewrite minus_IZR; lra).
      assert (n <= Zfloor y)%Z by (apply IZR_lt_succ; lra).
      lia.
Qed.

Lemma round_half_even_near (y : R) :
  - (1 / 2) <= IZR (round_half_even y) - y <= 1 / 2.
Proof.
  unfold round_half_even.
  pose proof (Zfloor_bound y) as [Hf1 Hf2].
  destruct (Rlt_dec (y - IZR (Zfloor y)) (1 / 2)) as [Hd | Hd].
  - rewrite (proj2 (Rltb_true_iff _ _) Hd).
    lra.
  - rewrite (proj2 (Rltb_false_iff _ _)) by lra.
    destruct (Rlt_dec (1 / 2) (y - IZR (Zfloor y))) as [Hd' | Hd'].
    + rewrite (proj2 (Rltb_true_iff _ _) Hd').
      rewrite plus_IZR. lra.
    + rewrite (proj2 (Rltb_false_iff _ _)) by lra.
      destruct (Z.even (Zfloor y)); [| rewrite plus_IZR]; lra.
Qed.

Lemma round2_eq (x : R) (n : Z) :
  IZR n - 1 / 2 < x * 100 < IZR n + 1 / 2 -> round2 x = IZR n / 100.
Proof.
  intros H. unfold round2. now rewrite (round_half_even_eq _ n H).
Qed.

Lemma round2_near (x : R) : - 0.005 <= round2 x - x <= 0.005.
Proof.
  unfold round2.
  pose proof (round_half_even_near (x * 100)) as H.
  lra.
Qed.

Lemma Rpower_math_e (q : R) : Rpower math_e q = exp q.
Proof.
  unfold Rpower, math_e. now rewrite ln_exp, Rmult_1_r.
Qed.

Lemma py_int_nonneg (x : R) : 0 <= x -> py_int x = Zfloor x.
Proof.
  intros H. unfold py_int. now rewrite (proj2 (Rleb_true_iff _ _) H).
Qed.

Lemma py_int_IZR (n : Z) : py_int (IZR n) = n.
Proof.
  unfold py_int. destruct (0 <=? IZR n).
  - apply ZfloorZ.
  - apply Zceil_eq. lra.
Qed.

(** ** Bounds on the constants of the worked examples *)

Lemma PI_bounds : 3.1415926 < PI < 3.1415927.
Proof.
  pose proof (PI_2_3_7_ineq 3) as [Hlo Hhi].
  unfold sum_f_R0, tg_alt, PI_2_3_7_tg, Ratan_seq in Hlo, Hhi.
  cbn -[Rmult Rplus Rdiv Rinv pow INR] in Hlo, Hhi.
  simpl in Hlo, Hhi.
  split; lra.
Qed.

Lemma sqrt_lower (a x : R) : 0 <= a -> a * a < x -> a < sqrt x.
Proof.
  intros Ha H. rewrite <- (sqrt_square a Ha) at 1.
  apply sqrt_lt_1; nra.
Qed.

Lemma sqrt_upper (a x : R) : 0 <= a -> 0 <= x -> x < a * a -> sqrt x < a.
Proof.
  intros Ha Hx H. rewrite <- (sqrt_square a Ha) at 1.
  apply sqrt_lt_1; nra.
Qed.

Lemma sqrt_2_bounds : 1.41421 < sqrt 2 < 1.41422.
Proof. split; [apply sqrt_lower | apply sqrt_upper]; lra. Qed.


(** Partial sums of the series of [exp (- y)] bracket it when [0 <= y <= 1]. *)
Lemma exp_neg_bracket (y : R) (N : nat) :
  0 <= y <= 1 ->
  sum_f_R0 (tg_alt (fun i => y ^ i / INR (fact i))) (S (2 * N)) <= exp (- y)
  <= sum_f_R0 (tg_alt (fun i => y ^ i / INR (fact i))) (2 * N).
Proof.
  intros [Hy0 Hy1].
  apply alternated_series_ineq.
  - intros n. unfold Rdiv.
    replace (y ^ S n * / INR (fact (S n)))
      with ((y ^ n * / INR (fact n)) * (y * / INR (S n))).
    + rewrite <- (Rmult_1_r (y ^ n * / INR (fact n))) at 2.
      apply Rmult_le_compat_l.
      * apply Rmult_le_pos; [now apply pow_le |].
        left; apply Rinv_0_lt_compat, INR_fact_lt_0.
      * assert (1 <= INR (S n)) by (rewrite S_INR; pose proof (pos_INR n); lra).
        apply Rmult_le_reg_r with (INR (S n)); [lra |].
        rewrite Rmult_assoc, Rinv_l by lra. lra.
    + rewrite fact_simpl, mult_INR. simpl pow.
      field. split; [apply INR_fact_neq_0 | apply not_0_INR; lia].
  - apply (cv_speed_pow_fact y).
  - unfold exp. destruct (exist_exp (- y)) as [l Hl]. simpl.
    unfold exp_in, infinite_sum in Hl. unfold Un_cv, tg_alt.
    intros eps Heps. destruct (Hl eps Heps) as [n0 Hn0].
    exists n0. intros n Hn.
    replace (sum_f_R0 (fun i => (-1) ^ i * (y ^ i / INR (fact i))) n)
      with (sum_f_R0 (fun i => / INR (fact i) * (- y) ^ i) n).
    + now apply Hn0.
    + apply sum_eq. intros i _.
      replace (- y) with (-1 * y) by ring. rewrite Rpow_mult_distr.
      unfold Rdiv. ring.
Qed.

Lemma exp_neg_015_bounds : 0.860707976 < exp (- 0.15) < 0.860707977.
Proof.
  assert (Hy : 0 <= 0.15 <= 1) by lra.
  pose proof (exp_neg_bracket 0.15 3 Hy) as [Hlo Hhi].
  unfold sum_f_R0, tg_alt in Hlo, Hhi.
  simpl in Hlo, Hhi.
  replace (-0.15) with (- (0.15)) by lra.
  split; lra.
Qed.

Lemma exp_12_bounds : 3.3201169 < exp 1.2 < 3.3201170.
Proof.
  pose proof exp_neg_015_bounds as [Hlo Hhi].
  pose proof (exp_pos 1.2) as HX.
  pose proof (exp_pos (- 0.15)) as He.
  assert (H2 : exp (- 0.3) = exp (- 0.15) * exp (- 0.15)).
  { rewrite <- exp_plus. f_equal. lra. }
  assert (H4 : exp (- 0.6) = exp (- 0.3) * exp (- 0.3)).
  { rewrite <- exp_plus. f_equal. lra. }
  assert (H8 : exp (- 1.2) = exp (- 0.6) * exp (- 0.6)).
  { rewrite <- exp_plus. f_equal. lra. }
  assert (Hinv : exp 1.2 * exp (- 1.2) = 1).
  { rewrite <- exp_plus. replace (1.2 + - 1.2) with 0 by lra. apply exp_0. }
  assert (B2 : 0.7408182 < exp (- 0.3) < 0.7408183) by (rewrite H2; split; nra).
  assert (B4 : 0.54881160 < exp (- 0.6) < 0.54881175) by (rewrite H4; split; nra).
  assert (B8 : 0.30119417 < exp (- 1.2) < 0.30119434) by (rewrite H8; split; nra).
  split; nra.
Qed.

Lemma sin_0785_bounds : 0.7068248 < sin 0.785 < 0.7068614.
Proof.
  assert (H0 : 0 <= 0.785) by lra.
  assert (HPI : 0.785 <= PI) by (pose proof PI2_1; lra).
  pose proof (sin_bound 0.785 1 H0 HPI) as [Hlo _].
  pose proof (sin_bound 0.785 0 H0 HPI) as [_ Hhi].
  unfold sin_approx, sin_term, sum_f_R0 in Hlo, Hhi.
  simpl in Hlo, Hhi.
  split; lra.
Qed.

(** ** The worked examples of the docstrings *)


Example feet_to_meter_5_5 : feet_to_meter 5.5 = 18.04.
Proof.
  unfold feet_to_meter, FEET_TO_METER.
  rewrite (round2_eq _ 1804) by lra. lra.
Qed.

Lemma rocket_volume_5_10_15 : rocket_volume 5 10 15 = 1439.9.
Proof.
  unfold rocket_volume. pose proof PI_bounds.
  rewrite (round2_eq _ 143990) by lra. lra.
Qed.

Lemma rocket_mass_5_10_15 : rocket_mass 5 10 15 = 1763.88.
Proof.
  unfold rocket_mass, DENSITY_OF_ROCKET. rewrite rocket_volume_5_10_15.
  rewrite (round2_eq _ 176388) by lra. lra.
Qed.


Lemma rocket_fuel_example :
  rocket_fuel 5 10 15 2500 3000 120 = Ok 167292.41.
Proof.
  unfold rocket_fuel, py_div.
  rewrite (proj2 (Reqb_false_iff 2500 0)) by lra. cbn [bind].
  rewrite rocket_mass_5_10_15, Rpower_math_e.
  unfold ROCKET_SMALL_MASS, SMALL_ROCKET_FUEL_ECON.
  rewrite (proj2 (Rltb_true_iff 1763.88 100000)) by lra.
  replace (3000 / 2500) with 1.2 by lra.
  pose proof exp_12_bounds.
  rewrite (round2_eq _ 16729241) by lra.
  f_equal; lra.
Qed.



Lemma rocket_volume_docstring : rocket_volume 16.4 32.8 49.2 = 50810.43.
Proof.
  unfold rocket_volume. pose proof PI_bounds.
  rewrite (round2_eq _ 5081043) by lra. lra.
Qed.

Lemma rocket_mass_docstring : rocket_mass 16.4 32.8 49.2 = 62242.78.
Proof.
  unfold rocket_mass, DENSITY_OF_ROCKET. rewrite rocket_volume_docstring.
  rewrite (round2_eq _ 6224278) by lra. lra.
Qed.

Lemma rocket_area_docstring : rocket_area 16.4 32.8 49.2 = 7804.13.
Proof.
  unfold rocket_area. pose proof PI_bounds.
  assert (Hs : 36.671514 < sqrt (32.8 ^ 2 + 16.4 ^ 2) < 36.671515)
    by (split; [apply sqrt_lower | apply sqrt_upper]; lra).
  rewrite (round2_eq _ 780413) by nra. lra.
Qed.

Lemma rocket_fuel_docstring :
  rocket_fuel 16.4 32.8 49.2 2500 3000 120 = Ok 307610.53.
Proof.
  unfold rocket_fuel, py_div.
  rewrite (proj2 (Reqb_false_iff 2500 0)) by lra. cbn [bind].
  rewrite rocket_mass_docstring, Rpower_math_e.
  unfold ROCKET_SMALL_MASS, SMALL_ROCKET_FUEL_ECON.
  rewrite (proj2 (Rltb_true_iff 62242.78 100000)) by lra.
  replace (3000 / 2500) with 1.2 by lra.
  pose proof exp_12_bounds.
  rewrite (round2_eq _ 30761053) by lra.
  f_equal; lra.
Qed.

(** The cost of the session of the docstring of [rocket_main], where the
    flag is the integer 1. *)
Example calculate_cost_docstring_session :
  calculate_cost 16.4 32.8 49.2 2500 3000 120 (PyInt 1) = Ok 2202761.62.
Proof.
  unfold calculate_cost. rewrite rocket_fuel_docstring, rocket_area_docstring.
  cbn [bind py_eq_True Z.eqb Pos.eqb]. unfold METAL_COST, FUEL_COST, TAX.
  rewrite (round2_eq _ 220276162) by lra.
  f_equal; lra.
Qed.

Lemma compute_storage_space_5_15 :
  compute_storage_space 5 15 = (7.07, 7.07, 7.5).
Proof.
  unfold compute_storage_space. pose proof sqrt_2_bounds.
  rewrite (round2_eq (sqrt 2 * 5) 707) by lra.
  rewrite (round2_eq (15 / 2) 750) by lra.
  repeat f_equal; lra.
Qed.

Lemma storage_volume_of_5_15 : storage_volume_of 5 15 = 374.89.
Proof.
  unfold storage_volume_of. rewrite compute_storage_space_5_15.
  rewrite (round2_eq _ 37489) by lra. lra.
Qed.

Lemma load_rocket_unfold (w radius height_cyl : R) (c : console) :
  load_rocket w radius height_cyl c =
  load_loop w (storage_volume_of radius height_cyl) (S (List.length (stdin c)))
    (load_init w (storage_volume_of radius height_cyl)) c.
Proof. reflexivity. Qed.

(** ** One pass through the loop of [load_rocket] *)

Section LoadLoopFacts.

Variables w sv : R.

Lemma loop_test_true_iff (st : load_state) :
  loop_test w sv st = true <->
  total_weight st < w + w * WEIGHT_THRESHOLD_MAXIMUM
  /\ total_volume st < sv + sv * VOLUME_THRESHOLD_MAXIMUM.
Proof.
  unfold loop_test. now rewrite andb_true_iff, !Rltb_true_iff.
Qed.

Lemma loop_body_no_room (st : load_state) (c : console) :
  no_room w sv st ->
  loop_body w sv st c =
  (Ok (Return (PyFloat (round2 (total_weight st)))),
   mkConsole (stdin c) (stdout c ++ [Text "No more items can be added"])).
Proof.
  intros Hroom. unfold loop_body.
  destruct (Rlt_dec (w * WEIGHT_THRESHOLD_MAXIMUM - weight_of_all_items st)
              MIN_BOX_WEIGHT) as [H1 | H1].
  - rewrite (proj2 (Rltb_true_iff _ _) H1). reflexivity.
  - rewrite (proj2 (Rltb_false_iff _ _)) by lra.
    destruct Hroom as [H | H]; [contradiction |].
    rewrite (proj2 (Rltb_true_iff _ _) H). reflexivity.
Qed.

Lemma loop_body_eof (st : load_state) (c : console) :
  ~ no_room w sv st -> stdin c = [] ->
  loop_body w sv st c = (Raise EOFError, c).
Proof.
  intros Hroom Hin. unfold no_room in Hroom. unfold loop_body.
  rewrite !(proj2 (Rltb_false_iff _ _)) by lra.
  unfold io_bind, input. now rewrite Hin.
Qed.

Lemma loop_body_done (st : load_state) (c : console) (rest : list line) :
  ~ no_room w sv st -> stdin c = Done :: rest ->
  loop_body w sv st c =
  (Ok (Return (PyFloat (round2 (total_weight st)))),
   mkConsole rest (stdout c)).
Proof.
  intros Hroom Hin. unfold no_room in Hroom. unfold loop_body.
  rewrite !(proj2 (Rltb_false_iff _ _)) by lra.
  unfold io_bind, input. now rewrite Hin.
Qed.

Lemma weight_check_iff (st : load_state) (item_weight : R) :
  (item_weight <? MIN_BOX_WEIGHT) || (item_weight >? MAX_BOX_WEIGHT)
  || (weight_of_all_items st + item_weight >? w * WEIGHT_THRESHOLD_MAXIMUM)
  = true <-> weight_rejected w st item_weight.
Proof.
  unfold weight_rejected, Rgtb.
  rewrite !orb_true_iff, !Rltb_true_iff. unfold Rgt. tauto.
Qed.

Lemma volume_check_iff (st : load_state) (item_volume : R) :
  (item_volume <? MIN_BOX_VOLUME)
  || (volume_of_all_items st + item_volume >? sv * VOLUME_THRESHOLD_MAXIMUM)
  = true <-> volume_rejected sv st item_volume.
Proof.
  unfold volume_rejected, Rgtb.
  rewrite !orb_true_iff, !Rltb_true_iff. unfold Rgt. tauto.
Qed.

Lemma loop_body_reads_item (st : load_state) (c : console)
    (item_weight item_width item_length item_height : R) (rest : list line) :
  ~ no_room w sv st ->
  stdin c = Num item_weight :: Num item_width :: Num item_length
              :: Num item_height :: rest ->
  let item_volume := item_width * item_length * item_height in
  let pending_weight := weight_of_all_items st + item_weight in
  let pending_volume := volume_of_all_items st + item_volume in
  (weight_rejected w st item_weight ->
   loop_body w sv st c =
   (Ok (Next (mkLoad (total_weight st) (total_volume st)
                (pending_weight - item_weight) pending_volume)),
    mkConsole rest
      (stdout c ++ [Text "Item could not be added... please try again..."])))
  /\ (~ weight_rejected w st item_weight ->
      volume_rejected sv st item_volume ->
      loop_body w sv st c =
      (Ok (Next (mkLoad (total_weight st) (total_volume st)
                   pending_weight (pending_volume - item_volume))),
       mkConsole rest
         (stdout c ++ [Text "Item could not be added... please try again..."])))
  /\ (~ weight_rejected w st item_weight ->
      ~ volume_rejected sv st item_volume ->
      loop_body w sv st c =
      (Ok (Next (mkLoad (total_weight st + pending_weight)
                   (total_volume st + pending_volume)
                   pending_weight pending_volume)),
       mkConsole rest (stdout c))).
Proof.
  intros Hroom Hin item_volume pending_weight pending_volume.
  assert (Hbody : loop_body w sv st c =
    if (item_weight <? MIN_BOX_WEIGHT) || (item_weight >? MAX_BOX_WEIGHT)
       || (pending_weight >? w * WEIGHT_THRESHOLD_MAXIMUM)
    then (Ok (Next (mkLoad (total_weight st) (total_volume st)
                (pending_weight - item_weight) pending_volume)),
          mkConsole rest
           (stdout c ++ [Text "Item could not be added... please try again..."]))
    else if (item_volume <? MIN_BOX_VOLUME)
            || (pending_volume >? sv * VOLUME_THRESHOLD_MAXIMUM)
    then (Ok (Next (mkLoad (total_weight st) (total_volume st)
                   pending_weight (pending_volume - item_volume))),
          mkConsole rest
           (stdout c ++ [Text "Item could not be added... please try again..."]))
    else (Ok (Next (mkLoad (total_weight st + pending_weight)
                   (total_volume st + pending_volume)
                   pending_weight pending_volume)),
          mkConsole rest (stdout c))).
  { unfold no_room in Hroom. unfold loop_body.
    rewrite !(proj2 (Rltb_false_iff _ _)) by lra.
    unfold io_bind, input, float, ret, print. rewrite Hin. cbn [stdin stdout].
    fold item_volume pending_weight pending_volume.
    destruct ((item_weight <? MIN_BOX_WEIGHT) || (item_weight >? MAX_BOX_WEIGHT)
       || (pending_weight >? w * WEIGHT_THRESHOLD_MAXIMUM)); [reflexivity |].
    destruct ((item_volume <? MIN_BOX_VOLUME)
            || (pending_volume >? sv * VOLUME_THRESHOLD_MAXIMUM)); reflexivity. }
  pose proof (weight_check_iff st item_weight) as Hw.
  pose proof (volume_check_iff st item_volume) as Hv.
  fold pending_weight in Hw. fold pending_volume in Hv.
  rewrite Hbody. repeat split.
  - intros Hrej. apply Hw in Hrej. now rewrite Hrej.
  - intros Hok Hrej.
    destruct ((item_weight <? MIN_BOX_WEIGHT) || (item_weight >? MAX_BOX_WEIGHT)
       || (pending_weight >? w * WEIGHT_THRESHOLD_MAXIMUM)) eqn:E.
    + exfalso. apply Hok. now apply Hw.
    + apply Hv in Hrej. now rewrite Hrej.
  - intros Hok Hvok.
    destruct ((item_weight <? MIN_BOX_WEIGHT) || (item_weight >? MAX_BOX_WEIGHT)
       || (pending_weight >? w * WEIGHT_THRESHOLD_MAXIMUM)) eqn:E.
    + exfalso. apply Hok. now apply Hw.
    + destruct ((item_volume <? MIN_BOX_VOLUME)
            || (pending_volume >? sv * VOLUME_THRESHOLD_MAXIMUM)) eqn:E'.
      * exfalso. apply Hvok. now apply Hv.
      * reflexivity.
Qed.

Lemma no_room_dec (st : load_state) : {no_room w sv st} + {~ no_room w sv st}.
Proof.
  unfold no_room.
  destruct (Rlt_dec (w * WEIGHT_THRESHOLD_MAXIMUM - weight_of_all_items st)
              MIN_BOX_WEIGHT); [left; tauto |].
  destruct (Rlt_dec (sv * VOLUME_THRESHOLD_MAXIMUM - volume_of_all_items st)
              MIN_BOX_VOLUME); [left; tauto | right; tauto].
Qed.

(** A pass that goes on to the next one has read the four lines of an item. *)
Lemma loop_body_next_inv (st st' : load_state) (c c' : console) :
  loop_body w sv st c = (Ok (Next st'), c') ->
  ~ no_room w sv st
  /\ exists item_weight item_width item_length item_height,
      stdin c = Num item_weight :: Num item_width :: Num item_length
                  :: Num item_height :: stdin c'.
Proof.
  intros Hbody.
  destruct (no_room_dec st) as [Hroom | Hroom].
  { rewrite (loop_body_no_room st c Hroom) in Hbody. discriminate. }
  split; [assumption |].
  destruct (stdin c) as [| l0 rest0] eqn:Hin.
  { rewrite (loop_body_eof st c Hroom Hin) in Hbody. discriminate. }
  destruct l0 as [| item_weight |].
  { rewrite (loop_body_done st c rest0 Hroom Hin) in Hbody. discriminate. }
  2:{ unfold no_room in Hroom. unfold loop_body in Hbody.
      rewrite !(proj2 (Rltb_false_iff _ _)) in Hbody by lra.
      unfold io_bind, input, float, raise in Hbody. rewrite Hin in Hbody.
      discriminate. }
  unfold no_room in Hroom. unfold loop_body in Hbody.
  rewrite !(proj2 (Rltb_false_iff _ _)) in Hbody by lra.
  unfold io_bind, input, float, raise, ret, print in Hbody.
  rewrite Hin in Hbody.
  destruct rest0 as [| [| item_width |] rest1];
    cbn [stdin stdout] in Hbody; try discriminate.
  destruct rest1 as [| [| item_length |] rest2];
    cbn [stdin stdout] in Hbody; try discriminate.
  destruct rest2 as [| [| item_height |] rest3];
    cbn [stdin stdout] in Hbody; try discriminate.
  exists item_weight, item_width, item_length, item_height.
  repeat f_equal.
  repeat match type of Hbody with
         | context [if ?b then _ else _] => destruct b
         end; cbn [stdin stdout] in Hbody; inversion Hbody; reflexivity.
Qed.

Lemma loop_body_consumes (st st' : load_state) (c c' : console) :
  loop_body w sv st c = (Ok (Next st'), c') ->
  (List.length (stdin c') < List.length (stdin c))%nat.
Proof.
  intros Hbody. apply loop_body_next_inv in Hbody.
  destruct Hbody as [_ (iw & a & b & d & Hin)].
  rewrite Hin. cbn [List.length]. lia.
Qed.

Lemma load_loop_exit (fuel : nat) (st : load_state) (c : console) :
  loop_test w sv st = false ->
  load_loop w sv (S fuel) st c = (Ok (Some PyNone), c).
Proof. intros Htest. cbn [load_loop]. now rewrite Htest. Qed.

Lemma load_loop_return (fuel : nat) (st : load_state) (c c' : console)
    (v : pyval) :
  loop_test w sv st = true ->
  loop_body w sv st c = (Ok (Return v), c') ->
  load_loop w sv (S fuel) st c = (Ok (Some v), c').
Proof.
  intros Htest Hbody. cbn [load_loop]. rewrite Htest.
  unfold io_bind. now rewrite Hbody.
Qed.

Lemma load_loop_next (fuel : nat) (st st' : load_state) (c c' : console) :
  loop_test w sv st = true ->
  loop_body w sv st c = (Ok (Next st'), c') ->
  load_loop w sv (S fuel) st c = load_loop w sv fuel st' c'.
Proof.
  intros Htest Hbody. cbn [load_loop]. rewrite Htest.
  unfold io_bind. now rewrite Hbody.
Qed.

Lemma load_loop_raise (fuel : nat) (st : load_state) (c c' : console)
    (e : exn) :
  loop_test w sv st = true ->
  loop_body w sv st c = (Raise e, c') ->
  load_loop w sv (S fuel) st c = (Raise e, c').
Proof.
  intros Htest Hbody. cbn [load_loop]. rewrite Htest.
  unfold io_bind. now rewrite Hbody.
Qed.

Lemma load_loop_enough_fuel (fuel : nat) (st : load_state) (c : console) :
  (List.length (stdin c) < fuel)%nat ->
  fst (load_loop w sv fuel st c) <> Ok None.
Proof.
  revert st c. induction fuel as [| fuel IH]; intros st c Hlen; [lia |].
  destruct (loop_test w sv st) eqn:Htest.
  - destruct (loop_body w sv st c) as [[[st' | v] | e] c'] eqn:Hbody.
    + rewrite (load_loop_next fuel st st' c c' Htest Hbody).
      apply IH. apply loop_body_consumes in Hbody. lia.
    + rewrite (load_loop_return fuel st c c' v Htest Hbody). discriminate.
    + rewrite (load_loop_raise fuel st c c' e Htest Hbody). discriminate.
  - rewrite (load_loop_exit fuel st c Htest). discriminate.
Qed.

End LoadLoopFacts.

Ltac loader_arith :=
  unfold no_room, weight_rejected, volume_rejected, load_init,
    WEIGHT_THRESHOLD_MAXIMUM, VOLUME_THRESHOLD_MAXIMUM,
    MIN_BOX_WEIGHT, MAX_BOX_WEIGHT, MIN_BOX_VOLUME in *;
  cbn [total_weight total_volume weight_of_all_items volume_of_all_items] in *;
  lra.

Lemma weight_rejected_dec (w : R) (st : load_state) (x : R) :
  {weight_rejected w st x} + {~ weight_rejected w st x}.
Proof.
  unfold weight_rejected.
  destruct (Rlt_dec x MIN_BOX_WEIGHT); [left; tauto |].
  destruct (Rgt_dec x MAX_BOX_WEIGHT); [left; tauto |].
  destruct (Rgt_dec (weight_of_all_items st + x) (w * WEIGHT_THRESHOLD_MAXIMUM));
    [left; tauto | right; tauto].
Qed.

Lemma volume_rejected_dec (sv : R) (st : load_state) (x : R) :
  {volume_rejected sv st x} + {~ volume_rejected sv st x}.
Proof.
  unfold volume_rejected.
  destruct (Rlt_dec x MIN_BOX_VOLUME); [left; tauto |].
  destruct (Rgt_dec (volume_of_all_items st + x) (sv * VOLUME_THRESHOLD_MAXIMUM));
    [left; tauto | right; tauto].
Qed.

Lemma loop_body_keeps_pending_weight (w sv : R) (st st' : load_state)
    (c c' : console) :
  0 <= weight_of_all_items st <= w * WEIGHT_THRESHOLD_MAXIMUM ->
  loop_body w sv st c = (Ok (Next st'), c') ->
  0 <= weight_of_all_items st' <= w * WEIGHT_THRESHOLD_MAXIMUM.
Proof.
  intros Hinv Hbody.
  destruct (loop_body_next_inv w sv st st' c c' Hbody)
    as [Hroom (iw & a & b & d & Hin)].
  destruct (loop_body_reads_item w sv st c iw a b d (stdin c') Hroom Hin)
    as (Hwrej & Hvrej & Hacc).
  destruct (weight_rejected_dec w st iw) as [Hw | Hw].
  - rewrite (Hwrej Hw) in Hbody. inversion Hbody; subst st'.
    cbn [weight_of_all_items]. lra.
  - destruct (volume_rejected_dec sv st (a * b * d)) as [Hv | Hv].
    + rewrite (Hvrej Hw Hv) in Hbody. inversion Hbody; subst st'. loader_arith.
    + rewrite (Hacc Hw Hv) in Hbody. inversion Hbody; subst st'. loader_arith.
Qed.


(** The states that [reaches] relates are those the loop goes through. *)
Lemma reaches_load_loop (w sv : R) (st st' : load_state) (c c' : console) :
  reaches w sv st c st' c' ->
  exists passes, forall fuel,
    load_loop w sv (passes + fuel) st c = load_loop w sv fuel st' c'.
Proof.
  intros Hreach. induction Hreach as [| st1 c1 st2 c2 Hreach IH Htest Hbody].
  - now exists 0%nat.
  - destruct IH as [passes IH]. exists (S passes). intros fuel.
    replace (S passes + fuel)%nat with (passes + S fuel)%nat by lia.
    rewrite IH. now apply load_loop_next.
Qed.

Lemma storage_volume_of_docstring : storage_volume_of 16.4 49.2 = 13229.29.
Proof.
  unfold storage_volume_of, compute_storage_space.
  pose proof sqrt_2_bounds.
  rewrite (round2_eq (sqrt 2 * 16.4) 2319) by lra.
  rewrite (round2_eq (49.2 / 2) 2460) by lra.
  rewrite (round2_eq _ 1322929) by lra. lra.
Qed.

(** The session of the docstring of [rocket_main]: one item of weight 100
    and sides 5, 5, 5, then Done. *)
Example load_rocket_docstring_session :
  load_rocket 62242.78 16.4 49.2
    (mkConsole [Num 100; Num 5; Num 5; Num 5; Done] []) =
  (Ok (Some (PyFloat 62342.78)), mkConsole [] []).
Proof.
  rewrite load_rocket_unfold, storage_volume_of_docstring.
  cbn [stdin List.length].
  rewrite (load_loop_next 62242.78 13229.29 _ (load_init 62242.78 13229.29)
             (mkLoad (62242.78 + (0 + 100)) (13229.29 + (0 + 5 * 5 * 5))
                (0 + 100) (0 + 5 * 5 * 5))
             _ (mkConsole [Done] [])).
  - rewrite (load_loop_return 62242.78 13229.29 _ _ _ (mkConsole [] [])
               (PyFloat (round2 (62242.78 + (0 + 100))))).
    + rewrite (round2_eq _ 6234278) by lra.
      replace (IZR 6234278 / 100) with 62342.78 by lra. reflexivity.
    + apply loop_test_true_iff. loader_arith.
    + apply (loop_body_done 62242.78 13229.29
               (mkLoad (62242.78 + (0 + 100)) (13229.29 + (0 + 5 * 5 * 5))
                  (0 + 100) (0 + 5 * 5 * 5))
               (mkConsole [Done] []) []); [loader_arith | reflexivity].
  - apply loop_test_true_iff. loader_arith.
  - apply (loop_body_reads_item 62242.78 13229.29 (load_init 62242.78 13229.29)
             (mkConsole [Num 100; Num 5; Num 5; Num 5; Done] [])
             100 5 5 5 [Done]);
      try reflexivity; loader_arith.
Qed.

(** A first item of weight 20 and volume 1 is accepted by a rocket of weight
    2000 with storage volume 374.89. *)
Lemma first_item_accepted :
  loop_body 2000 374.89 (load_init 2000 374.89)
    (mkConsole [Num 20; Num 1; Num 1; Num 1; Done] []) =
  (Ok (Next (mkLoad (2000 + (0 + 20)) (374.89 + (0 + 1 * 1 * 1))
               (0 + 20) (0 + 1 * 1 * 1))),
   mkConsole [Done] []).
Proof.
  apply (loop_body_reads_item 2000 374.89 (load_init 2000 374.89)
           (mkConsole [Num 20; Num 1; Num 1; Num 1; Done] []) 20 1 1 1 [Done]);
    try reflexivity; loader_arith.
Qed.

(** ** The claims about [load_rocket] *)

(** C3: in a pass of the loop of [load_rocket] that reads an item, the
    item's weight and its volume (width * length * height) are added to the
    pending accumulators before any check: the weight check compares the sum
    that already contains the item with the budget, a weight rejection
    leaves the item's volume in the volume accumulator, a volume rejection
    leaves the item's weight in the weight accumulator.  On acceptance the
    whole pending weight and the whole pending volume, not the item's own,
    are added to [total_weight] and [total_volume]. *)
Theorem item_is_added_before_validation (w sv : R) (st : load_state)
    (c : console) (item_weight item_width item_length item_height : R)
    (rest : list line) :
  ~ no_room w sv st ->
  stdin c = Num item_weight :: Num item_width :: Num item_length
              :: Num item_height :: rest ->
  let item_volume := item_width * item_length * item_height in
  let pending_weight := weight_of_all_items st + item_weight in
  let pending_volume := volume_of_all_items st + item_volume in
  (weight_rejected w st item_weight ->
   loop_body w sv st c =
   (Ok (Next (mkLoad (total_weight st) (total_volume st)
                (pending_weight - item_weight) pending_volume)),
    mkConsole rest
      (stdout c ++ [Text "Item could not be added... please try again..."])))
  /\ (~ weight_rejected w st item_weight ->
      volume_rejected sv st item_volume ->
      loop_body w sv st c =
      (Ok (Next (mkLoad (total_weight st) (total_volume st)
                   pending_weight (pending_volume - item_volume))),
       mkConsole rest
         (stdout c ++ [Text "Item could not be added... please try again..."])))
  /\ (~ weight_rejected w st item_weight ->
      ~ volume_rejected sv st item_volume ->
      loop_body w sv st c =
      (Ok (Next (mkLoad (total_weight st + pending_weight)
                   (total_volume st + pending_volume)
                   pending_weight pending_volume)),
       mkConsole rest (stdout c))).
Proof.
  intros Hroom Hin. exact (loop_body_reads_item w sv st c _ _ _ _ rest Hroom Hin).
Qed.

Lemma item_is_added_before_validation_witness :
  loop_body 2000 374.89 (mkLoad 2030 380 30 5)
    (mkConsole [Num 40; Num 1; Num 2; Num 3] []) =
  (Ok (Next (mkLoad (2030 + (30 + 40)) (380 + (5 + 1 * 2 * 3))
               (30 + 40) (5 + 1 * 2 * 3))),
   mkConsole [] []).
Proof.
  apply (item_is_added_before_validation 2000 374.89 (mkLoad 2030 380 30 5)
           (mkConsole [Num 40; Num 1; Num 2; Num 3] []) 40 1 2 3 []);
    try reflexivity; loader_arith.
Defined.

Section PendingWeightDrift.

Import PrimFloat.
#[local] Set Warnings "-inexact-float".
#[local] Open Scope float_scope.

(** C9: the bound [weight_of_all_items <= rocket_initial_weight * 0.05]
    does not hold at the start of every pass in the program's binary64
    arithmetic.  [load_rocket(2500, 5, 15)], whose storage volume is 374.89,
    answered with an item of weight 100 and sides 1, 1, 1 and then an item
    of weight 1e18 and sides 1, 1, 1, accepts the first and rejects the
    second for its weight.  The rejection computes [(100 + 1e18) - 1e18],
    whose sum was rounded to [1e18 + 128], so the third pass begins with a
    pending weight of 128 while the budget [2500 * 0.05] is 125. *)
Theorem pending_weight_exceeds_budget :
  Binary64.pass_starts 2500 374.89 (Binary64.load_init 2500 374.89)
    [Binary64.mkItem 100 1 1 1; Binary64.mkItem 1e18 1 1 1]
  = [Binary64.mkLoad 2500 374.89 0 0;
     Binary64.mkLoad 2600 375.89 100 1;
     Binary64.mkLoad 2600 375.89 128 2]
  /\ 2500 * Binary64.WEIGHT_THRESHOLD_MAXIMUM = 125
  /\ (125 <? 128) = true
  /\ (100 + 1e18) - 1e18 = 128.
Proof. vm_compute. repeat split. Qed.

End PendingWeightDrift.

(** C10: [load_rocket] terminates on every finite console input.  A pass of
    the loop that goes on to another pass has consumed lines of the input,
    so the loop run with more fuel than there are lines left never runs out
    of fuel, and [load_rocket], which takes one unit more than the length of
    the input, always ends: with a return or with a raised exception. *)
Theorem load_rocket_terminates (w sv : R) (fuel : nat) (st : load_state)
    (c : console) :
  (List.length (stdin c) < fuel)%nat ->
  (forall st' c', loop_body w sv st c = (Ok (Next st'), c') ->
     (List.length (stdin c') < List.length (stdin c))%nat)
  /\ (exists r c', load_loop w sv fuel st c = (r, c') /\ r <> Ok None)
  /\ (forall radius height_cyl,
        fst (load_rocket w radius height_cyl c) <> Ok None).
Proof.
  intros Hfuel. split; [| split].
  - intros st' c'. apply loop_body_consumes.
  - destruct (load_loop w sv fuel st c) as [r c'] eqn:Hrun.
    exists r, c'. split; [reflexivity |].
    pose proof (load_loop_enough_fuel w sv fuel st c Hfuel) as H.
    now rewrite Hrun in H.
  - intros radius height_cyl. rewrite load_rocket_unfold.
    apply load_loop_enough_fuel. lia.
Qed.

Lemma load_rocket_terminates_witness :
  exists r c',
    load_loop 2000 374.89 6 (load_init 2000 374.89)
      (mkConsole [Num 20; Num 1; Num 1; Num 1; Done] []) = (r, c')
    /\ r <> Ok None.
Proof.
  apply (load_rocket_terminates 2000 374.89 6 (load_init 2000 374.89)
           (mkConsole [Num 20; Num 1; Num 1; Num 1; Done] [])).
  cbn [stdin List.length]. lia.
Defined.

(** A rocket without weight never enters the loop: the function ends without
    a [return]. *)
Lemma load_rocket_nonpositive_weight (w radius height_cyl : R) (c : console) :
  w <= 0 -> load_rocket w radius height_cyl c = (Ok (Some PyNone), c).
Proof.
  intros Hw. rewrite load_rocket_unfold. apply load_loop_exit.
  unfold loop_test. rewrite (proj2 (Rltb_false_iff _ _)); [reflexivity |].
  loader_arith.
Qed.

Lemma no_room_exit (w sv : R) (fuel : nat) (st : load_state) (c : console) :
  loop_test w sv st = true ->
  no_room w sv st ->
  load_loop w sv (S fuel) st c =
  (Ok (Some (PyFloat (round2 (total_weight st)))),
   mkConsole (stdin c) (stdout c ++ [Text "No more items can be added"])).
Proof.
  intros Htest Hroom.
  apply load_loop_return; [assumption |].
  now apply loop_body_no_room.
Qed.

Lemma small_budget_exit (w radius height_cyl : R) (c : console) :
  0 < w -> 0 < storage_volume_of radius height_cyl ->
  w * WEIGHT_THRESHOLD_MAXIMUM < MIN_BOX_WEIGHT ->
  load_rocket w radius height_cyl c =
  (Ok (Some (PyFloat (round2 w))),
   mkConsole (stdin c) (stdout c ++ [Text "No more items can be added"])).
Proof.
  intros Hw Hsv Hbudget. rewrite load_rocket_unfold.
  apply (no_room_exit w (storage_volume_of radius height_cyl) _
           (load_init w (storage_volume_of radius height_cyl)) c).
  - apply loop_test_true_iff. loader_arith.
  - left. loader_arith.
Qed.

(** C4, as the code has it: when a pass of the loop of [load_rocket] starts
    (the loop test holds) and the weight budget less the pending weight is
    below 20, or the volume budget less the pending volume is below 0.125,
    the loader prints its message, reads no line of the input and returns the
    current [total_weight] rounded to two decimals.  In particular, when the
    first pass is entered (positive initial weight and storage volume) and
    the weight budget is below 20, it returns the rounded initial weight and
    the input is untouched. *)
Theorem no_room_exit_returns_rounded_weight :
  (forall (w sv : R) (fuel : nat) (st : load_state) (c : console),
     loop_test w sv st = true ->
     w * 0.05 - weight_of_all_items st < 20
     \/ sv * 0.4 - volume_of_all_items st < 0.125 ->
     load_loop w sv (S fuel) st c =
     (Ok (Some (PyFloat (round2 (total_weight st)))),
      mkConsole (stdin c) (stdout c ++ [Text "No more items can be added"])))
  /\ (forall (w radius height_cyl : R) (c : console),
        0 < w -> 0 < storage_volume_of radius height_cyl ->
        w * 0.05 < 20 ->
        load_rocket w radius height_cyl c =
        (Ok (Some (PyFloat (round2 w))),
         mkConsole (stdin c)
           (stdout c ++ [Text "No more items can be added"]))).
Proof.
  split.
  - intros w sv fuel st c Htest Hroom. now apply no_room_exit.
  - intros w radius height_cyl c Hw Hsv Hbudget. now apply small_budget_exit.
Qed.

Lemma no_room_exit_returns_rounded_weight_witness :
  load_loop 2000 374.89 1 (mkLoad 2090 380 90 5)
    (mkConsole [Num 20; Num 1; Num 1; Num 1] []) =
  (Ok (Some (PyFloat (round2 2090))),
   mkConsole [Num 20; Num 1; Num 1; Num 1]
     [Text "No more items can be added"])
  /\ load_rocket 300 5 15 (mkConsole [Num 20; Num 1; Num 1; Num 1] []) =
     (Ok (Some (PyFloat (round2 300))),
      mkConsole [Num 20; Num 1; Num 1; Num 1]
        [Text "No more items can be added"]).
Proof.
  destruct no_room_exit_returns_rounded_weight as [Hloop Hfirst].
  split.
  - apply (Hloop 2000 374.89 0%nat (mkLoad 2090 380 90 5)
             (mkConsole [Num 20; Num 1; Num 1; Num 1] [])).
    + apply loop_test_true_iff. loader_arith.
    + left. cbn [weight_of_all_items]. lra.
  - apply (Hfirst 300 5 15 (mkConsole [Num 20; Num 1; Num 1; Num 1] [])).
    + lra.
    + rewrite storage_volume_of_5_15. lra.
    + lra.
Defined.

(** The value returned on that exit is the rounded weight, not the weight:
    [load_rocket(440, 5, 15)] accepts an item of weight 20.004, its total
    weight is then 460.004, no further item fits the budget of 22 and it
    returns 460.0, leaving the next item unread. *)
Lemma no_room_exit_rounds :
  load_rocket 440 5 15
    (mkConsole [Num 20.004; Num 1; Num 1; Num 1;
                Num 30; Num 1; Num 1; Num 1] []) =
  (Ok (Some (PyFloat 460)),
   mkConsole [Num 30; Num 1; Num 1; Num 1]
     [Text "No more items can be added"])
  /\ reaches 440 374.89 (load_init 440 374.89)
       (mkConsole [Num 20.004; Num 1; Num 1; Num 1;
                   Num 30; Num 1; Num 1; Num 1] [])
       (mkLoad 460.004 375.89 20.004 1)
       (mkConsole [Num 30; Num 1; Num 1; Num 1] [])
  /\ PyFloat 460 <> PyFloat 460.004.
Proof.
  assert (Hpass :
    loop_body 440 374.89 (load_init 440 374.89)
      (mkConsole [Num 20.004; Num 1; Num 1; Num 1;
                  Num 30; Num 1; Num 1; Num 1] []) =
    (Ok (Next (mkLoad 460.004 375.89 20.004 1)),
     mkConsole [Num 30; Num 1; Num 1; Num 1] [])).
  { replace (mkLoad 460.004 375.89 20.004 1)
      with (mkLoad (440 + (0 + 20.004)) (374.89 + (0 + 1 * 1 * 1))
              (0 + 20.004) (0 + 1 * 1 * 1))
      by (f_equal; lra).
    apply (loop_body_reads_item 440 374.89 (load_init 440 374.89)
             (mkConsole [Num 20.004; Num 1; Num 1; Num 1;
                         Num 30; Num 1; Num 1; Num 1] [])
             20.004 1 1 1 [Num 30; Num 1; Num 1; Num 1]);
      try reflexivity; loader_arith. }
  assert (Htest : loop_test 440 374.89 (load_init 440 374.89) = true)
    by (apply loop_test_true_iff; loader_arith).
  split; [| split].
  - rewrite load_rocket_unfold, storage_volume_of_5_15.
    cbn [stdin List.length].
    rewrite (load_loop_next 440 374.89 _ _ _ _ _ Htest Hpass).
    rewrite no_room_exit.
    + cbn [total_weight stdin stdout app].
      rewrite (round2_eq 460.004 46000) by lra.
      replace (IZR 46000 / 100) with 460 by lra. reflexivity.
    + apply loop_test_true_iff. loader_arith.
    + left. loader_arith.
  - eapply reaches_pass; [apply reaches_refl | exact Htest | exact Hpass].
  - intros H. inversion H. lra.
Qed.

(** C1: the run [load_rocket(400, 5, 15)] with the console lines 20, 1, 1, 1
    accepts the item, the total weight becomes 420, the loop test
    [420 < 400 + 400 * 0.05] fails, and the function ends without a
    [return]: its value is [None], not the total weight rounded to two
    decimals. *)
Theorem load_rocket_loop_exit_returns_None :
  load_rocket 400 5 15 (mkConsole [Num 20; Num 1; Num 1; Num 1] []) =
  (Ok (Some PyNone), mkConsole [] []).
Proof.
  rewrite load_rocket_unfold, storage_volume_of_5_15.
  cbn [stdin List.length].
  rewrite (load_loop_next 400 374.89 _ (load_init 400 374.89)
             (mkLoad (400 + (0 + 20)) (374.89 + (0 + 1 * 1 * 1))
                (0 + 20) (0 + 1 * 1 * 1))
             _ (mkConsole [] [])).
  - apply load_loop_exit. unfold loop_test.
    rewrite (proj2 (Rltb_false_iff _ _)); [reflexivity | loader_arith].
  - apply loop_test_true_iff. loader_arith.
  - apply (loop_body_reads_item 400 374.89 (load_init 400 374.89)
             (mkConsole [Num 20; Num 1; Num 1; Num 1] []) 20 1 1 1 []);
      try reflexivity; loader_arith.
Qed.

(** C2: a rejection restores one accumulator only.  An item of weight 1000
    and volume 150 offered to a rocket of weight 2000 is rejected by the
    weight check, and the pending volume is 150 afterwards, not 0; an item
    of weight 50 and volume 200 is rejected by the volume check, and the
    pending weight is 50 afterwards, not 0.  After the first of these
    rejections [load_rocket(2000, 5, 15)] has no volume left for anything:
    it returns at once and does not read the item that follows. *)
Theorem rejection_restores_one_accumulator_only :
  (loop_body 2000 374.89 (load_init 2000 374.89)
     (mkConsole [Num 1000; Num 10; Num 10; Num 1.5] []) =
   (Ok (Next (mkLoad 2000 374.89 (0 + 1000 - 1000) (0 + 10 * 10 * 1.5))),
    mkConsole [] [Text "Item could not be added... please try again..."])
   /\ 0 + 10 * 10 * 1.5 <> 0)
  /\ (loop_body 2000 374.89 (load_init 2000 374.89)
        (mkConsole [Num 50; Num 10; Num 10; Num 2] []) =
      (Ok (Next (mkLoad 2000 374.89 (0 + 50) (0 + 10 * 10 * 2 - 10 * 10 * 2))),
       mkConsole [] [Text "Item could not be added... please try again..."])
      /\ 0 + 50 <> 0)
  /\ load_rocket 2000 5 15
       (mkConsole [Num 1000; Num 10; Num 10; Num 1.5;
                   Num 100; Num 1; Num 1; Num 1] []) =
     (Ok (Some (PyFloat 2000)),
      mkConsole [Num 100; Num 1; Num 1; Num 1]
        [Text "Item could not be added... please try again...";
         Text "No more items can be added"]).
Proof.
  split; [| split].
  - split; [| lra].
    apply (loop_body_reads_item 2000 374.89 (load_init 2000 374.89)
             (mkConsole [Num 1000; Num 10; Num 10; Num 1.5] [])
             1000 10 10 1.5 []);
      try reflexivity; loader_arith.
  - split; [| lra].
    apply (loop_body_reads_item 2000 374.89 (load_init 2000 374.89)
             (mkConsole [Num 50; Num 10; Num 10; Num 2] []) 50 10 10 2 []);
      try reflexivity; loader_arith.
  - rewrite load_rocket_unfold, storage_volume_of_5_15.
    cbn [stdin List.length].
    rewrite (load_loop_next 2000 374.89 _ (load_init 2000 374.89)
               (mkLoad 2000 374.89 (0 + 1000 - 1000) (0 + 10 * 10 * 1.5))
               _ (mkConsole [Num 100; Num 1; Num 1; Num 1]
                    [Text "Item could not be added... please try again..."])).
    + rewrite no_room_exit.
      * cbn [total_weight stdin stdout app].
        rewrite (round2_eq 2000 200000) by lra.
        replace (IZR 200000 / 100) with 2000 by lra. reflexivity.
      * apply loop_test_true_iff. loader_arith.
      * right. loader_arith.
    + apply loop_test_true_iff. loader_arith.
    + apply (loop_body_reads_item 2000 374.89 (load_init 2000 374.89)
               (mkConsole [Num 1000; Num 10; Num 10; Num 1.5;
                           Num 100; Num 1; Num 1; Num 1] [])
               1000 10 10 1.5 [Num 100; Num 1; Num 1; Num 1]);
        try reflexivity; loader_arith.
Qed.

(** ** The claims about [rocket_fuel] and [calculate_cost] *)

Lemma py_div_nonzero (x y : R) : y <> 0 -> py_div x y = Ok (x / y).
Proof. intros H. unfold py_div. now rewrite (proj2 (Reqb_false_iff _ _) H). Qed.

Lemma py_div_zero (x : R) : py_div x 0 = Raise ZeroDivisionError.
Proof. unfold py_div. now rewrite (proj2 (Reqb_true_iff 0 0) eq_refl). Qed.

Lemma fuel_tiers (mass flight_time total_fuel : R) :
  (if mass <? ROCKET_SMALL_MASS then
     total_fuel + SMALL_ROCKET_FUEL_ECON * flight_time
   else if mass <? ROCKET_MEDIUM_MASS then
     total_fuel + MED_ROCKET_FUEL_ECON * flight_time
   else total_fuel + LARGE_ROCKET_FUEL_ECON * flight_time)
  = total_fuel + fuel_addend mass flight_time.
Proof.
  unfold fuel_addend, ROCKET_SMALL_MASS, ROCKET_MEDIUM_MASS,
    SMALL_ROCKET_FUEL_ECON, MED_ROCKET_FUEL_ECON, LARGE_ROCKET_FUEL_ECON.
  destruct (Rlt_dec mass 100000) as [H1 | H1].
  - now rewrite (proj2 (Rltb_true_iff _ _) H1).
  - rewrite (proj2 (Rltb_false_iff mass 100000)) by lra.
    rewrite (proj2 (Rleb_true_iff 100000 mass)) by lra.
    now destruct (mass <? 400000).
Qed.

Lemma rocket_fuel_nonzero
    (radius height_cone height_cyl velocity_e velocity_i flight_time : R) :
  velocity_e <> 0 ->
  rocket_fuel radius height_cone height_cyl velocity_e velocity_i flight_time
  = Ok (round2
          (rocket_mass radius height_cone height_cyl
             * (exp (velocity_i / velocity_e) - 1)
           + fuel_addend (rocket_mass radius height_cone height_cyl)
               flight_time)).
Proof.
  intros Hve. unfold rocket_fuel. rewrite (py_div_nonzero _ _ Hve).
  cbn [bind]. now rewrite fuel_tiers, Rpower_math_e.
Qed.

Lemma rocket_fuel_zero
    (radius height_cone height_cyl velocity_i flight_time : R) :
  rocket_fuel radius height_cone height_cyl 0 velocity_i flight_time
  = Raise ZeroDivisionError.
Proof. unfold rocket_fuel. now rewrite py_div_zero. Qed.



(** *** The float range *)

Lemma FLOAT_OVERFLOW_upper : Ranged.FLOAT_OVERFLOW <= 2 ^ 1024.
Proof.
  unfold Ranged.FLOAT_OVERFLOW.
  assert (0 < 2 ^ 970) by (apply pow_lt; lra). lra.
Qed.

Lemma FLOAT_OVERFLOW_lower : 2 ^ 970 <= Ranged.FLOAT_OVERFLOW.
Proof.
  unfold Ranged.FLOAT_OVERFLOW.
  replace 1024%nat with (970 + 54)%nat by reflexivity.
  rewrite pow_add.
  assert (H970 : 0 < 2 ^ 970) by (apply pow_lt; lra).
  assert (H54 : 2 <= 2 ^ 54).
  { replace 2 with (2 ^ 1) at 1 by lra. apply Rle_pow; [lra | lia]. }
  nra.
Qed.

Lemma million_in_range : 1000000 < Ranged.FLOAT_OVERFLOW.
Proof.
  eapply Rlt_le_trans; [| apply FLOAT_OVERFLOW_lower].
  apply Rlt_le_trans with (2 ^ 20); [simpl; lra |].
  apply Rle_pow; [lra | lia].
Qed.

Lemma exp_INR (n : nat) : exp (INR n) = exp 1 ^ n.
Proof.
  induction n as [| n IH].
  - cbn [INR pow]. apply exp_0.
  - rewrite S_INR, exp_plus, IH. cbn [pow]. ring.
Qed.

Lemma exp_1000_overflows : Ranged.FLOAT_OVERFLOW <= exp 1000.
Proof.
  eapply Rle_trans; [apply FLOAT_OVERFLOW_upper |].
  replace 1000 with (INR 1000) by (rewrite INR_IZR_INZ; reflexivity).
  rewrite exp_INR.
  assert (He : 2.25 <= exp 1).
  { replace 1 with (1 / 2 + 1 / 2) by lra. rewrite exp_plus.
    pose proof (exp_ineq1_le (1 / 2)). nra. }
  apply Rle_trans with (2.25 ^ 1000); [| apply pow_incr; lra].
  replace 1000%nat with (8 * 125)%nat by reflexivity.
  rewrite pow_mult.
  apply Rle_trans with ((2 ^ 9) ^ 125).
  - rewrite <- pow_mult. apply Rle_pow; [lra | lia].
  - apply pow_incr. split; [apply pow_le; lra | simpl; lra].
Qed.

Lemma exp_600_in_range : exp 600 < Ranged.FLOAT_OVERFLOW.
Proof.
  eapply Rlt_le_trans; [| apply FLOAT_OVERFLOW_lower].
  replace 600 with (INR 600) by (rewrite INR_IZR_INZ; reflexivity).
  rewrite exp_INR.
  apply Rle_lt_trans with (3 ^ 600).
  - apply pow_incr. split; [left; apply exp_pos | apply exp_le_3].
  - replace 600%nat with (5 * 120)%nat by reflexivity.
    rewrite pow_mult.
    apply Rle_lt_trans with ((2 ^ 8) ^ 120).
    + apply pow_incr. simpl. lra.
    + rewrite <- pow_mult. apply Rlt_pow; [lra | lia].
Qed.

Lemma exp_in_range (q : R) : q <= 600 -> exp q < Ranged.FLOAT_OVERFLOW.
Proof.
  intros H. eapply Rle_lt_trans; [| apply exp_600_in_range].
  destruct H as [H | ->]; [left; now apply exp_increasing | right; reflexivity].
Qed.

Lemma exp_out_of_range (q : R) : 1000 <= q -> Ranged.FLOAT_OVERFLOW <= exp q.
Proof.
  intros H. eapply Rle_trans; [apply exp_1000_overflows |].
  destruct H as [H | <-]; [left; now apply exp_increasing | right; reflexivity].
Qed.

Lemma to_float_finite (x : R) :
  Rabs x < Ranged.FLOAT_OVERFLOW -> Ranged.to_float x = Ranged.Finite x.
Proof.
  intros H. unfold Ranged.to_float.
  now rewrite (proj2 (Rleb_false_iff _ _) H).
Qed.

Lemma moderate_in_range (x : R) :
  - 2 ^ 100 <= x <= 2 ^ 100 -> Rabs x < Ranged.FLOAT_OVERFLOW.
Proof.
  intros H. apply Rle_lt_trans with (2 ^ 100); [now apply Rabs_le |].
  eapply Rlt_le_trans; [| apply FLOAT_OVERFLOW_lower].
  apply Rlt_pow; [lra | lia].
Qed.

Lemma two_pow_100_large : 1000000000000000000000 <= 2 ^ 100.
Proof.
  replace 100%nat with (10 * 10)%nat by reflexivity. rewrite pow_mult.
  apply Rle_trans with (1000 ^ 10); [simpl; lra |].
  apply pow_incr. simpl. lra.
Qed.

Lemma huge_in_range (x : R) :
  - (2 ^ 900 * 2 ^ 60) <= x <= 2 ^ 900 * 2 ^ 60 ->
  Rabs x < Ranged.FLOAT_OVERFLOW.
Proof.
  intros H. apply Rle_lt_trans with (2 ^ 900 * 2 ^ 60); [now apply Rabs_le |].
  eapply Rlt_le_trans; [| apply FLOAT_OVERFLOW_lower].
  rewrite <- pow_add. apply Rlt_pow; [lra | lia].
Qed.

Ltac in_range :=
  apply moderate_in_range; pose proof two_pow_100_large; lra.

(** *** The faults of the geometry, the fuel and the cost *)

Lemma py_pow2_in_range (x : R) :
  x * x < Ranged.FLOAT_OVERFLOW ->
  Ranged.py_pow2 x = Ok (Ranged.Finite (x * x)).
Proof.
  intros H. unfold Ranged.py_pow2.
  now rewrite (proj2 (Rleb_false_iff _ _) H).
Qed.

Lemma py_pow2_overflow (x : R) :
  Ranged.FLOAT_OVERFLOW <= x * x -> Ranged.py_pow2 x = Raise OverflowError.
Proof.
  intros H. unfold Ranged.py_pow2.
  now rewrite (proj2 (Rleb_true_iff _ _) H).
Qed.

Lemma ranged_rocket_mass_overflow (radius height_cone height_cyl : R) :
  Ranged.FLOAT_OVERFLOW <= radius * radius ->
  Ranged.rocket_mass radius height_cone height_cyl = Raise OverflowError.
Proof.
  intros H. unfold Ranged.rocket_mass, Ranged.rocket_volume.
  now rewrite (py_pow2_overflow _ H).
Qed.

Lemma ranged_rocket_mass_returns (radius height_cone height_cyl : R) :
  radius * radius < Ranged.FLOAT_OVERFLOW ->
  exists mass, Ranged.rocket_mass radius height_cone height_cyl = Ok mass.
Proof.
  intros H. unfold Ranged.rocket_mass, Ranged.rocket_volume.
  rewrite (py_pow2_in_range _ H). cbn [bind]. eexists. reflexivity.
Qed.

Lemma ranged_rocket_area_overflow (radius height_cone height_cyl : R) :
  Ranged.FLOAT_OVERFLOW <= height_cone * height_cone
  \/ Ranged.FLOAT_OVERFLOW <= radius * radius ->
  Ranged.rocket_area radius height_cone height_cyl = Raise OverflowError.
Proof.
  intros H. unfold Ranged.rocket_area.
  destruct (Rlt_dec (height_cone * height_cone) Ranged.FLOAT_OVERFLOW)
    as [Hc | Hc].
  - destruct H as [H | H]; [lra |].
    rewrite (py_pow2_in_range _ Hc). cbn [bind].
    now rewrite (py_pow2_overflow _ H).
  - rewrite py_pow2_overflow by lra. reflexivity.
Qed.

Lemma math_sqrt_of_squares (a b : R) :
  exists root,
    Ranged.math_sqrt
      (Ranged.fadd (Ranged.Finite (a * a)) (Ranged.Finite (b * b))) = Ok root.
Proof.
  cbn [Ranged.fadd]. unfold Ranged.to_float.
  pose proof million_in_range as HT.
  destruct (Ranged.FLOAT_OVERFLOW <=? Rabs (a * a + b * b)) eqn:Hbig.
  - apply Rleb_true_iff in Hbig.
    rewrite Rabs_pos_eq in Hbig by nra.
    rewrite (proj2 (Rltb_true_iff 0 _)) by lra.
    eexists. reflexivity.
  - cbn [Ranged.math_sqrt].
    rewrite (proj2 (Rltb_false_iff _ 0)) by nra.
    eexists. reflexivity.
Qed.

Lemma ranged_rocket_area_returns (radius height_cone height_cyl : R) :
  height_cone * height_cone < Ranged.FLOAT_OVERFLOW ->
  radius * radius < Ranged.FLOAT_OVERFLOW ->
  exists area, Ranged.rocket_area radius height_cone height_cyl = Ok area.
Proof.
  intros Hc Hr. unfold Ranged.rocket_area.
  rewrite (py_pow2_in_range _ Hc), (py_pow2_in_range _ Hr). cbn [bind].
  destruct (math_sqrt_of_squares height_cone radius) as [root ->].
  cbn [bind]. eexists. reflexivity.
Qed.

Lemma py_pow_e_quotient (velocity_e velocity_i : R) :
  (Ranged.power_overflows velocity_e velocity_i ->
   Ranged.py_pow_e (Ranged.to_float (velocity_i / velocity_e))
   = Raise OverflowError)
  /\ (~ Ranged.power_overflows velocity_e velocity_i ->
      exists power,
        Ranged.py_pow_e (Ranged.to_float (velocity_i / velocity_e))
        = Ok power).
Proof.
  unfold Ranged.power_overflows, Ranged.to_float.
  set (q := velocity_i / velocity_e). split.
  - intros [Hq Hexp].
    rewrite (proj2 (Rleb_false_iff _ _) Hq). cbn [Ranged.py_pow_e].
    rewrite Rpower_math_e. now rewrite (proj2 (Rleb_true_iff _ _) Hexp).
  - intros Hno.
    destruct (Ranged.FLOAT_OVERFLOW <=? Rabs q) eqn:Hq.
    + destruct (0 <? q); eexists; reflexivity.
    + apply Rleb_false_iff in Hq. cbn [Ranged.py_pow_e].
      rewrite Rpower_math_e.
      destruct (Ranged.FLOAT_OVERFLOW <=? exp q) eqn:Hexp.
      * apply Rleb_true_iff in Hexp. tauto.
      * eexists. reflexivity.
Qed.

Lemma power_overflows_dec (velocity_e velocity_i : R) :
  {Ranged.power_overflows velocity_e velocity_i}
  + {~ Ranged.power_overflows velocity_e velocity_i}.
Proof.
  unfold Ranged.power_overflows.
  destruct (Rlt_dec (Rabs (velocity_i / velocity_e)) Ranged.FLOAT_OVERFLOW);
    [| right; tauto].
  destruct (Rle_dec Ranged.FLOAT_OVERFLOW (exp (velocity_i / velocity_e)));
    [left | right]; tauto.
Qed.

Lemma ranged_py_div_zero (x : R) :
  Ranged.py_div x 0 = Raise ZeroDivisionError.
Proof.
  unfold Ranged.py_div. now rewrite (proj2 (Reqb_true_iff 0 0) eq_refl).
Qed.

Lemma ranged_py_div_nonzero (x y : R) :
  y <> 0 -> Ranged.py_div x y = Ok (Ranged.to_float (x / y)).
Proof.
  intros H. unfold Ranged.py_div. now rewrite (proj2 (Reqb_false_iff _ _) H).
Qed.

(** The four ways [rocket_fuel] ends: the mass is computed first, then the
    quotient, then the power. *)
Lemma ranged_rocket_fuel_cases
    (radius height_cone height_cyl velocity_e velocity_i flight_time : R) :
  let fuel := Ranged.rocket_fuel radius height_cone height_cyl
                velocity_e velocity_i flight_time in
  (Ranged.FLOAT_OVERFLOW <= radius * radius -> fuel = Raise OverflowError)
  /\ (radius * radius < Ranged.FLOAT_OVERFLOW ->
      (velocity_e = 0 -> fuel = Raise ZeroDivisionError)
      /\ (velocity_e <> 0 -> Ranged.power_overflows velocity_e velocity_i ->
          fuel = Raise OverflowError)
      /\ (velocity_e <> 0 -> ~ Ranged.power_overflows velocity_e velocity_i ->
          exists v, fuel = Ok v)).
Proof.
  intros fuel. subst fuel. unfold Ranged.rocket_fuel. split.
  - intros H. now rewrite (ranged_rocket_mass_overflow _ _ _ H).
  - intros H.
    destruct (ranged_rocket_mass_returns radius height_cone height_cyl H)
      as [mass Hmass].
    rewrite Hmass. cbn [bind]. split; [| split].
    + intros ->. now rewrite ranged_py_div_zero.
    + intros Hve Hover. rewrite (ranged_py_div_nonzero _ _ Hve). cbn [bind].
      now rewrite (proj1 (py_pow_e_quotient velocity_e velocity_i) Hover).
    + intros Hve Hover. rewrite (ranged_py_div_nonzero _ _ Hve). cbn [bind].
      destruct (proj2 (py_pow_e_quotient velocity_e velocity_i) Hover)
        as [power ->].
      cbn [bind].
      destruct (Ranged.flt mass (Ranged.Finite ROCKET_SMALL_MASS)).
      * eexists. reflexivity.
      * cbn [bind].
        destruct (Ranged.flt mass (Ranged.Finite ROCKET_MEDIUM_MASS));
          eexists; reflexivity.
Qed.

(** [calculate_cost] has no handler: it computes the area, then lets the
    exception of [rocket_fuel] through. *)
Lemma ranged_calculate_cost_raises
    (radius height_cone height_cyl velocity_e velocity_i flight_time : R)
    (tax : pyval) (e : exn) :
  Ranged.rocket_fuel radius height_cone height_cyl
    velocity_e velocity_i flight_time = Raise e ->
  exists e',
    Ranged.calculate_cost radius height_cone height_cyl
      velocity_e velocity_i flight_time tax = Raise e'
    /\ (height_cone * height_cone < Ranged.FLOAT_OVERFLOW -> e' = e).
Proof.
  intros Hfuel. unfold Ranged.calculate_cost.
  destruct (Rlt_dec (height_cone * height_cone) Ranged.FLOAT_OVERFLOW)
    as [Hc | Hc].
  - destruct (Rlt_dec (radius * radius) Ranged.FLOAT_OVERFLOW) as [Hr | Hr].
    + destruct (ranged_rocket_area_returns radius height_cone height_cyl Hc Hr)
        as [area ->].
      cbn [bind]. rewrite Hfuel. cbn [bind]. now exists e.
    + rewrite ranged_rocket_area_overflow by (right; lra). cbn [bind].
      exists OverflowError. split; [reflexivity | intros _].
      destruct (ranged_rocket_fuel_cases radius height_cone height_cyl
                  velocity_e velocity_i flight_time) as [Hbig _].
      rewrite Hbig in Hfuel by lra. now inversion Hfuel.
  - rewrite ranged_rocket_area_overflow by (left; lra). cbn [bind].
    exists OverflowError. split; [reflexivity | intros; lra].
Qed.

(** *** Inside the range the two readings agree *)

Lemma ranged_rocket_volume_agrees (radius height_cone height_cyl : R) :
  - 1000 <= radius <= 1000 -> - 1000000 <= height_cone <= 1000000 ->
  - 1000000 <= height_cyl <= 1000000 ->
  Ranged.rocket_volume radius height_cone height_cyl
  = Ok (Ranged.Finite (rocket_volume radius height_cone height_cyl))
  /\ - 8000000000001 <= rocket_volume radius height_cone height_cyl
     <= 8000000000001.
Proof.
  intros Hr Hc Hy.
  assert (Hr2 : 0 <= radius * radius <= 1000000) by nra.
  pose proof PI_bounds as HPI.
  assert (Ha : 0 <= PI * (radius * radius) <= 4000000) by nra.
  set (a := PI * (radius * radius)) in *.
  assert (Hcone : - 4000000000000 <= a * (height_cone / 3) <= 4000000000000)
    by nra.
  assert (Hcyl : - 4000000000000 <= a * height_cyl <= 4000000000000) by nra.
  pose proof million_in_range as HT.
  unfold Ranged.rocket_volume, rocket_volume.
  rewrite py_pow2_in_range by lra. cbn [bind Ranged.fmul].
  fold a.
  rewrite (to_float_finite a) by in_range.
  rewrite (to_float_finite (height_cone / 3)) by in_range.
  cbn [Ranged.fmul Ranged.fadd].
  rewrite (to_float_finite (a * (height_cone / 3))) by in_range.
  rewrite (to_float_finite (a * height_cyl)) by in_range.
  cbn [Ranged.fadd].
  rewrite to_float_finite by in_range.
  cbn [Ranged.fround2].
  replace (radius ^ 2) with (radius * radius) by ring. fold a.
  split; [reflexivity |].
  pose proof (round2_near (a * (height_cone / 3) + a * height_cyl)). lra.
Qed.

Lemma ranged_rocket_mass_agrees (radius height_cone height_cyl : R) :
  - 1000 <= radius <= 1000 -> - 1000000 <= height_cone <= 1000000 ->
  - 1000000 <= height_cyl <= 1000000 ->
  Ranged.rocket_mass radius height_cone height_cyl
  = Ok (Ranged.Finite (rocket_mass radius height_cone height_cyl))
  /\ - 10000000000000 <= rocket_mass radius height_cone height_cyl
     <= 10000000000000.
Proof.
  intros Hr Hc Hy.
  destruct (ranged_rocket_volume_agrees radius height_cone height_cyl Hr Hc Hy)
    as [Hv Hb].
  unfold Ranged.rocket_mass, rocket_mass. rewrite Hv. cbn [bind Ranged.fmul].
  unfold DENSITY_OF_ROCKET.
  rewrite to_float_finite by in_range.
  cbn [Ranged.fround2]. split; [reflexivity |].
  pose proof (round2_near (rocket_volume radius height_cone height_cyl * 1.225)).
  lra.
Qed.

(** For a rocket of moderate size and a quotient of the velocities that is
    at most 500, [Ranged.rocket_fuel] returns the number that [rocket_fuel]
    returns. *)
Lemma ranged_rocket_fuel_agrees
    (radius height_cone height_cyl velocity_e velocity_i flight_time : R) :
  - 1000 <= radius <= 1000 -> - 1000000 <= height_cone <= 1000000 ->
  - 1000000 <= height_cyl <= 1000000 ->
  - 1000000 <= flight_time <= 1000000 ->
  velocity_e <> 0 -> - 1000000 <= velocity_i / velocity_e <= 500 ->
  exists fuel,
    rocket_fuel radius height_cone height_cyl
      velocity_e velocity_i flight_time = Ok fuel
    /\ Ranged.rocket_fuel radius height_cone height_cyl
         velocity_e velocity_i flight_time = Ok (Ranged.Finite fuel).
Proof.
  intros Hr Hc Hy Hft Hve Hq.
  destruct (ranged_rocket_mass_agrees radius height_cone height_cyl Hr Hc Hy)
    as [Hm Hb].
  eexists. split; [now apply rocket_fuel_nonzero |].
  unfold Ranged.rocket_fuel. rewrite Hm. cbn [bind].
  rewrite (ranged_py_div_nonzero _ _ Hve). cbn [bind].
  set (q := velocity_i / velocity_e) in *.
  set (mass := rocket_mass radius height_cone height_cyl) in *.
  rewrite (to_float_finite q) by in_range.
  cbn [Ranged.py_pow_e]. rewrite Rpower_math_e.
  assert (Hexp : exp q < Ranged.FLOAT_OVERFLOW) by (apply exp_in_range; lra).
  rewrite (proj2 (Rleb_false_iff _ _) Hexp).
  cbn [bind Ranged.fsub Ranged.fopp Ranged.fadd].
  pose proof (exp_pos q) as Hpos.
  assert (H800 : exp q <= 2 ^ 800).
  { apply Rle_trans with (exp 500).
    - destruct (proj2 Hq) as [H | ->];
        [left; now apply exp_increasing | right; reflexivity].
    - replace 500 with (INR 500) by (rewrite INR_IZR_INZ; reflexivity).
      rewrite exp_INR. apply Rle_trans with (3 ^ 500).
      + apply pow_incr. split; [left; apply exp_pos | apply exp_le_3].
      + replace 800%nat with (8 * 100)%nat by reflexivity.
        replace 500%nat with (5 * 100)%nat by reflexivity.
        rewrite !pow_mult. apply pow_incr. simpl. lra. }
  assert (H900 : 2 ^ 800 * 2 ^ 100 = 2 ^ 900) by (now rewrite <- pow_add).
  pose proof two_pow_100_large as H100.
  assert (H60 : 1000000000000000 <= 2 ^ 60).
  { replace 60%nat with (10 * 6)%nat by reflexivity. rewrite pow_mult.
    apply Rle_trans with (1000 ^ 6); [simpl; lra |].
    apply pow_incr. simpl. lra. }
  assert (H800p : 1 <= 2 ^ 800) by (apply pow_R1_Rle; lra).
  set (E := 2 ^ 800) in *. set (F := 2 ^ 100) in *. set (G := 2 ^ 60) in *.
  set (N := 2 ^ 900) in *.
  assert (HN : 1000000000000000000000 * E <= N) by nra.
  assert (Hbig : forall x, - (N * G) <= x <= N * G ->
                  Rabs x < Ranged.FLOAT_OVERFLOW)
    by (intros x Hx; now apply huge_in_range).
  rewrite (to_float_finite (exp q + - (1))) by (apply Hbig; nra).
  cbn [Ranged.fmul].
  assert (Hprod : - (10000000000000 * E) <= mass * (exp q + - (1))
                  <= 10000000000000 * E) by nra.
  rewrite (to_float_finite (mass * (exp q + - (1)))) by (apply Hbig; nra).
  unfold SMALL_ROCKET_FUEL_ECON, MED_ROCKET_FUEL_ECON, LARGE_ROCKET_FUEL_ECON,
    ROCKET_SMALL_MASS, ROCKET_MEDIUM_MASS.
  rewrite !to_float_finite by (apply Hbig; nra).
  cbn [Ranged.flt Ranged.fadd].
  rewrite !to_float_finite by (apply Hbig; nra).
  unfold fuel_addend.
  replace (exp q + - (1)) with (exp q - 1) by ring.
  destruct (Rlt_dec mass 100000) as [H1 | H1].
  - rewrite (proj2 (Rltb_true_iff _ _) H1). reflexivity.
  - rewrite (proj2 (Rltb_false_iff mass 100000)) by lra.
    rewrite (proj2 (Rleb_true_iff 100000 mass)) by lra.
    cbn [bind andb Ranged.flt].
    destruct (mass <? 400000); reflexivity.
Qed.

(** The docstring's example in the reading with the float range. *)
Example ranged_rocket_fuel_docstring :
  Ranged.rocket_fuel 5 10 15 2500 3000 120 = Ok (Ranged.Finite 167292.41).
Proof.
  destruct (ranged_rocket_fuel_agrees 5 10 15 2500 3000 120)
    as (fuel & Hideal & Hranged); try lra.
  rewrite rocket_fuel_example in Hideal. inversion Hideal; subst fuel.
  exact Hranged.
Qed.

(** C7: with the float range taken into account, [rocket_fuel] (finite
    float arguments) raises [ZeroDivisionError] exactly when [velocity_e]
    is zero and [radius ** 2] is inside the range, and [OverflowError]
    exactly when
    [radius ** 2] overflows or, [velocity_e] being nonzero, the quotient
    [velocity_i / velocity_e] is a finite float whose power
    [math.e ** quotient] is outside the range; it returns a value exactly
    in the remaining case.  The power never overflows for a quotient up to
    600 and always does for a finite quotient from 1000 on.  Nothing
    catches either exception: when [rocket_fuel] raises, [calculate_cost]
    raises too, and the same exception unless its own [height_cone ** 2]
    overflowed before. *)
Theorem rocket_fuel_faults
    (radius height_cone height_cyl velocity_e velocity_i flight_time : R) :
  let fuel := Ranged.rocket_fuel radius height_cone height_cyl
                velocity_e velocity_i flight_time in
  let in_range := radius * radius < Ranged.FLOAT_OVERFLOW in
  let overflows :=
    Rabs (velocity_i / velocity_e) < Ranged.FLOAT_OVERFLOW
    /\ Ranged.FLOAT_OVERFLOW <= exp (velocity_i / velocity_e) in
  (fuel = Raise ZeroDivisionError <-> in_range /\ velocity_e = 0)
  /\ (fuel = Raise OverflowError <->
      ~ in_range \/ (velocity_e <> 0 /\ overflows))
  /\ ((exists v, fuel = Ok v) <->
      in_range /\ velocity_e <> 0 /\ ~ overflows)
  /\ (velocity_i / velocity_e <= 600 -> ~ overflows)
  /\ (1000 <= velocity_i / velocity_e < Ranged.FLOAT_OVERFLOW -> overflows)
  /\ (forall e tax,
        fuel = Raise e ->
        exists e',
          Ranged.calculate_cost radius height_cone height_cyl
            velocity_e velocity_i flight_time tax = Raise e'
          /\ (height_cone * height_cone < Ranged.FLOAT_OVERFLOW -> e' = e)).
Proof.
  intros fuel in_range overflows.
  destruct (ranged_rocket_fuel_cases radius height_cone height_cyl
              velocity_e velocity_i flight_time) as [Hbig Hin].
  fold fuel in Hbig, Hin. fold in_range in Hin.
  change overflows with (Ranged.power_overflows velocity_e velocity_i).
  change (Ranged.power_overflows velocity_e velocity_i) with overflows in Hin.
  assert (Hcases :
    (~ in_range /\ fuel = Raise OverflowError)
    \/ (in_range /\ velocity_e = 0 /\ fuel = Raise ZeroDivisionError)
    \/ (in_range /\ velocity_e <> 0 /\ overflows
        /\ fuel = Raise OverflowError)
    \/ (in_range /\ velocity_e <> 0 /\ ~ overflows
        /\ exists v, fuel = Ok v)).
  { destruct (Rlt_dec (radius * radius) Ranged.FLOAT_OVERFLOW) as [Hr | Hr].
    - destruct (Hin Hr) as (H0 & Hover & Hret).
      destruct (Req_dec_T velocity_e 0) as [Hve | Hve].
      + right; left. auto.
      + destruct (power_overflows_dec velocity_e velocity_i) as [Ho | Ho].
        * right; right; left. auto.
        * right; right; right. auto.
    - left. split; [exact Hr |]. apply Hbig. unfold in_range in Hr. lra. }
  split; [| split; [| split; [| split; [| split]]]].
  - split.
    + intros Hf.
      destruct Hcases
        as [[_ H] | [(Hr & Hve & _) | [(_ & _ & _ & H) | (_ & _ & _ & v & H)]]];
        try (rewrite H in Hf; discriminate). auto.
    + intros [Hr Hve].
      destruct Hcases
        as [[Hn _] | [(_ & _ & H) | [(_ & Hne & _) | (_ & Hne & _)]]];
        auto; contradiction.
  - split.
    + intros Hf.
      destruct Hcases
        as [[Hn _] | [(_ & _ & H) | [(_ & Hne & Ho & _) | (_ & _ & _ & v & H)]]];
        try (rewrite H in Hf; discriminate); auto.
    + intros [Hn | [Hne Ho]].
      * destruct Hcases as [[_ H] | [(Hr & _) | [(Hr & _) | (Hr & _)]]];
          auto; contradiction.
      * destruct Hcases
          as [[_ H] | [(_ & Hve & _) | [(_ & _ & _ & H) | (_ & _ & Hno & _)]]];
          auto; contradiction.
  - split.
    + intros [v Hf].
      destruct Hcases
        as [[_ H] | [(_ & _ & H) | [(_ & _ & _ & H) | (Hr & Hne & Hno & _)]]];
        try (rewrite H in Hf; discriminate); auto.
    + intros (Hr & Hne & Hno).
      destruct Hcases
        as [[Hn _] | [(_ & Hve & _) | [(_ & _ & Ho & _) | (_ & _ & _ & H)]]];
        auto; contradiction.
  - intros Hq [_ Hexp]. pose proof (exp_in_range _ Hq). lra.
  - intros [Hq HT]. split.
    + rewrite Rabs_pos_eq by lra. exact HT.
    + now apply exp_out_of_range.
  - intros e tax Hf. now apply ranged_calculate_cost_raises.
Qed.

Lemma rocket_fuel_faults_witness :
  (exists v, Ranged.rocket_fuel 5 10 15 2500 3000 120 = Ok v)
  /\ Ranged.rocket_fuel 5 10 15 0 3000 120 = Raise ZeroDivisionError.
Proof.
  pose proof million_in_range as HT.
  split.
  - apply (rocket_fuel_faults 5 10 15 2500 3000 120).
    split; [lra | split; [lra |]].
    intros [_ Hexp].
    assert (Hq : 3000 / 2500 <= 600) by lra.
    pose proof (exp_in_range _ Hq). lra.
  - apply (rocket_fuel_faults 5 10 15 0 3000 120).
    split; [lra | reflexivity].
Defined.

(** The exhaust velocity is not zero and [rocket_fuel] does not return:
    [math.e ** 1000.0] raises [OverflowError]. *)
Lemma rocket_fuel_overflow :
  1 <> 0 /\ Ranged.rocket_fuel 5 10 15 1 1000 120 = Raise OverflowError.
Proof.
  split; [lra |].
  pose proof million_in_range as HT.
  destruct (ranged_rocket_fuel_cases 5 10 15 1 1000 120) as [_ Hin].
  apply Hin; [lra | lra |].
  split.
  - replace (1000 / 1) with 1000 by lra. rewrite Rabs_pos_eq by lra. lra.
  - replace (1000 / 1) with 1000 by lra. apply exp_1000_overflows.
Qed.







(** ** The claim about [projectile_sim] *)

Lemma height_at_spec (interval velocity_i angle : R) (step : Z) :
  height_at interval velocity_i angle step
  = spec_height interval velocity_i angle step.
Proof. reflexivity. Qed.

Lemma sim_loop_prints (interval velocity_i angle : R) (steps : list Z)
    (c : console) :
  sim_loop interval velocity_i angle steps c =
  (Ok PyNone,
   mkConsole (stdin c)
     (stdout c ++ map Number
        (emitted (map (spec_height interval velocity_i angle) steps)))).
Proof.
  revert c. induction steps as [| step rest IH]; intros c.
  - cbn [sim_loop map emitted]. rewrite app_nil_r. now destruct c.
  - cbn [sim_loop map emitted]. rewrite height_at_spec.
    set (h := spec_height interval velocity_i angle step).
    unfold Rgeb. destruct (Rle_dec 0 h) as [Hh | Hh].
    + rewrite (proj2 (Rleb_true_iff _ _) Hh).
      rewrite (proj2 (Rltb_false_iff _ _) Hh).
      unfold io_bind, print. rewrite IH. cbn [stdin stdout map].
      now rewrite <- app_assoc.
    + rewrite (proj2 (Rleb_false_iff _ _)) by lra.
      rewrite (proj2 (Rltb_true_iff _ _)) by lra.
      cbn [map]. rewrite app_nil_r. now destruct c.
Qed.

Lemma projectile_sim_prints (simulation_time interval velocity_i angle : R)
    (c : console) :
  interval <> 0 ->
  projectile_sim simulation_time interval velocity_i angle c =
  (Ok PyNone,
   mkConsole (stdin c)
     (stdout c ++ map Number
        (trajectory interval velocity_i angle
           (py_int (simulation_time / interval))))).
Proof.
  intros Hi. unfold projectile_sim, io_bind, lift, py_div.
  rewrite (proj2 (Reqb_false_iff _ _) Hi).
  apply sim_loop_prints.
Qed.

Lemma projectile_sim_zero_interval (simulation_time velocity_i angle : R)
    (c : console) :
  projectile_sim simulation_time 0 velocity_i angle c
  = (Raise ZeroDivisionError, c).
Proof.
  unfold projectile_sim, io_bind, lift, py_div.
  now rewrite (proj2 (Reqb_true_iff 0 0) eq_refl).
Qed.

Lemma trajectory_example :
  trajectory 1 30 0.785 10 = [0; 16.3; 22.79; 19.47; 6.34].
Proof.
  unfold trajectory.
  change (range 0 (10 + 1)) with [0; 1; 2; 3; 4; 5; 6; 7; 8; 9; 10]%Z.
  pose proof sin_0785_bounds as Hsin.
  cbn [map emitted]. unfold spec_height.
  repeat match goal with
  | |- context [?h <? 0] =>
      first [ rewrite (proj2 (Rltb_false_iff h 0)) by lra
            | rewrite (proj2 (Rltb_true_iff h 0)) by lra ]
  end.
  rewrite (round2_eq _ 0) by lra.
  rewrite (round2_eq _ 1630) by lra.
  rewrite (round2_eq _ 2279) by lra.
  rewrite (round2_eq _ 1947) by lra.
  rewrite (round2_eq _ 634) by lra.
  repeat f_equal; lra.
Qed.

Lemma py_int_small_negative : py_int (-1 / 2) = 0%Z /\ Zfloor (-1 / 2) = (-1)%Z.
Proof.
  split.
  - unfold py_int. rewrite (proj2 (Rleb_false_iff _ _)) by lra.
    apply Zceil_eq. lra.
  - apply Zfloor_eq. lra.
Qed.

(** C8, as the code has it: for a nonzero interval [projectile_sim] prints,
    in order, the heights [round(-0.5 * 9.81 * t^2 + velocity_i * sin(angle)
    * t, 2)] for [t = step * interval], [step] going from 0 to
    [int(simulation_time / interval)], the quotient truncated toward zero
    (its floor when it is not negative), and stops at the first negative
    height, which it does not print.  [projectile_sim(10, 1, 30, 0.785)]
    prints 0.0, 16.3, 22.79, 19.47, 6.34 and stops. *)
Theorem projectile_sim_heights
    (simulation_time interval velocity_i angle : R) (c : console) :
  interval <> 0 ->
  projectile_sim simulation_time interval velocity_i angle c =
  (Ok PyNone,
   mkConsole (stdin c)
     (stdout c ++ map Number
        (trajectory interval velocity_i angle
           (py_int (simulation_time / interval)))))
  /\ (0 <= simulation_time / interval ->
      py_int (simulation_time / interval)
      = Zfloor (simulation_time / interval))
  /\ projectile_sim 10 1 30 0.785 (mkConsole [] []) =
     (Ok PyNone,
      mkConsole []
        [Number 0; Number 16.3; Number 22.79; Number 19.47; Number 6.34]).
Proof.
  intros Hi. split; [| split].
  - now apply projectile_sim_prints.
  - apply py_int_nonneg.
  - rewrite projectile_sim_prints by lra.
    replace (10 / 1) with (IZR 10) by lra.
    now rewrite py_int_IZR, trajectory_example.
Qed.

Lemma projectile_sim_heights_witness :
  projectile_sim 5 2 30 0.785 (mkConsole [] []) =
  (Ok PyNone,
   mkConsole [] (map Number (trajectory 2 30 0.785 (py_int (5 / 2)))))
  /\ py_int (5 / 2) = Zfloor (5 / 2).
Proof.
  assert (Hi : 2 <> 0) by lra.
  destruct (projectile_sim_heights 5 2 30 0.785 (mkConsole [] []) Hi)
    as (Hrun & Hfloor & _).
  split; [exact Hrun | apply Hfloor; lra].
Defined.

(** With a simulation time of -1 and an interval of 2 the quotient is -0.5:
    [int] makes it 0 and the height at step 0 is printed, where steps up to
    the floor, -1, would be none. *)
Lemma projectile_sim_truncates :
  projectile_sim (-1) 2 30 0.785 (mkConsole [] []) =
  (Ok PyNone, mkConsole [] [Number 0])
  /\ trajectory 2 30 0.785 (Zfloor (-1 / 2)) = [].
Proof.
  destruct py_int_small_negative as [Hint Hfloor].
  split.
  - rewrite projectile_sim_prints by lra. rewrite Hint.
    unfold trajectory. change (range 0 (0 + 1)) with [0%Z].
    cbn [map emitted stdin stdout app]. unfold spec_height.
    rewrite (proj2 (Rltb_false_iff _ 0)) by lra.
    rewrite (round2_eq _ 0) by lra.
    replace (IZR 0 / 100) with 0 by lra. reflexivity.
  - rewrite Hfloor. reflexivity.
Qed.

(** * Further properties *)

(** ** Rounding *)

Lemma round_half_even_le (x y : R) :
  x <= y -> (round_half_even x <= round_half_even y)%Z.
Proof.
  intros [Hlt | ->]; [| lia].
  pose proof (round_half_even_near x) as Hx.
  pose proof (round_half_even_near y) as Hy.
  destruct (Z_le_gt_dec (round_half_even x) (round_half_even y)) as [H | H];
    [assumption | exfalso].
  assert (Hz : (round_half_even y + 1 <= round_half_even x)%Z) by lia.
  apply IZR_le in Hz. rewrite plus_IZR in Hz. lra.
Qed.

Lemma round2_le (x y : R) : x <= y -> round2 x <= round2 y.
Proof.
  intros H. unfold round2.
  assert (Hz : (round_half_even (x * 100) <= round_half_even (y * 100))%Z)
    by (apply round_half_even_le; lra).
  apply IZR_le in Hz. lra.
Qed.

Lemma round2_cents (n : Z) : round2 (IZR n / 100) = IZR n / 100.
Proof. apply round2_eq. lra. Qed.

Lemma round2_idempotent (x : R) : round2 (round2 x) = round2 x.
Proof. unfold round2 at 2 3. apply round2_cents. Qed.

Lemma round2_0 : round2 0 = 0.
Proof. rewrite (round2_eq 0 0) by lra. lra. Qed.

Lemma round2_nonneg (x : R) : 0 <= x -> 0 <= round2 x.
Proof. intros H. rewrite <- round2_0. now apply round2_le. Qed.

Lemma round2_nonpos (x : R) : x <= 0 -> round2 x <= 0.
Proof. intros H. rewrite <- round2_0. now apply round2_le. Qed.

(** ** Geometry and mass *)

Lemma rocket_area_sum (radius height_cone height_cyl : R) :
  rocket_area radius height_cone height_cyl
  = round2 (PI * radius * sqrt (height_cone ^ 2 + radius ^ 2)
            + 2 * PI * radius * height_cyl
            + PI * radius ^ 2).
Proof. unfold rocket_area. f_equal. ring. Qed.

Lemma rocket_area_nonneg (radius height_cone height_cyl : R) :
  0 <= radius -> 0 <= height_cyl ->
  0 <= rocket_area radius height_cone height_cyl.
Proof.
  intros Hr Hh. rewrite rocket_area_sum. apply round2_nonneg.
  pose proof PI_RGT_0 as HPI.
  pose proof (sqrt_pos (height_cone ^ 2 + radius ^ 2)) as Hs.
  assert (0 <= PI * radius) by nra.
  assert (0 <= PI * radius * sqrt (height_cone ^ 2 + radius ^ 2)) by nra.
  assert (0 <= 2 * PI * radius * height_cyl) by nra.
  assert (0 <= PI * radius ^ 2) by nra.
  lra.
Qed.

(** X1: [rocket_area] is the outer surface of the rocket: the lateral
    surface of the cone, the lateral surface of the cylinder and one disc,
    the bottom of the cylinder; the two discs where cone and cylinder meet
    are what the subtraction removes.  For a non-negative radius and
    cylinder height it is not negative. *)
Theorem rocket_area_outer_surface (radius height_cone height_cyl : R) :
  rocket_area radius height_cone height_cyl
  = round2 (PI * radius * sqrt (height_cone ^ 2 + radius ^ 2)
            + 2 * PI * radius * height_cyl
            + PI * radius ^ 2)
  /\ (0 <= radius -> 0 <= height_cyl ->
      0 <= rocket_area radius height_cone height_cyl).
Proof.
  split; [apply rocket_area_sum | apply rocket_area_nonneg].
Qed.

Lemma rocket_area_outer_surface_witness : 0 <= rocket_area 5 10 15.
Proof.
  apply (rocket_area_outer_surface 5 10 15); lra.
Defined.

(** X2: in [rocket_volume] a cone of height [h] counts as a cylinder of
    height [h / 3] on the same radius, and the sign of the radius does not
    matter. *)
Theorem rocket_volume_cone_as_cylinder (radius height_cone height_cyl : R) :
  rocket_volume radius height_cone height_cyl
  = rocket_volume radius 0 (height_cyl + height_cone / 3)
  /\ rocket_volume (- radius) height_cone height_cyl
     = rocket_volume radius height_cone height_cyl.
Proof. unfold rocket_volume. split; f_equal; field. Qed.

Lemma rocket_volume_le (radius hc hc' hcyl hcyl' : R) :
  hc <= hc' -> hcyl <= hcyl' ->
  rocket_volume radius hc hcyl <= rocket_volume radius hc' hcyl'.
Proof.
  intros H1 H2. unfold rocket_volume. apply round2_le.
  pose proof PI_RGT_0 as HPI.
  assert (Hr : 0 <= PI * radius ^ 2) by (apply Rmult_le_pos; [lra | nra]).
  nra.
Qed.

Lemma rocket_volume_flat (radius : R) : rocket_volume radius 0 0 = 0.
Proof.
  unfold rocket_volume.
  replace (PI * radius ^ 2 * (0 / 3) + PI * radius ^ 2 * 0) with 0 by field.
  apply round2_0.
Qed.

Lemma rocket_mass_le (radius hc hc' hcyl hcyl' : R) :
  hc <= hc' -> hcyl <= hcyl' ->
  rocket_mass radius hc hcyl <= rocket_mass radius hc' hcyl'.
Proof.
  intros H1 H2. unfold rocket_mass, DENSITY_OF_ROCKET. apply round2_le.
  pose proof (rocket_volume_le radius hc hc' hcyl hcyl' H1 H2). lra.
Qed.

Lemma rocket_mass_nonneg (radius hc hcyl : R) :
  0 <= hc -> 0 <= hcyl -> 0 <= rocket_mass radius hc hcyl.
Proof.
  intros H1 H2. unfold rocket_mass, DENSITY_OF_ROCKET. apply round2_nonneg.
  pose proof (rocket_volume_le radius 0 hc 0 hcyl H1 H2) as H.
  rewrite rocket_volume_flat in H. lra.
Qed.

Lemma rocket_mass_rounded (radius height_cone height_cyl : R) :
  round2 (rocket_mass radius height_cone height_cyl)
  = rocket_mass radius height_cone height_cyl.
Proof. unfold rocket_mass. apply round2_idempotent. Qed.

(** X3: whatever the radius, [rocket_mass] does not decrease when the cone
    or the cylinder gets higher, and it is not negative when both heights
    are not negative. *)
Theorem rocket_mass_grows_with_height (radius hc hc' hcyl hcyl' : R) :
  hc <= hc' -> hcyl <= hcyl' ->
  rocket_mass radius hc hcyl <= rocket_mass radius hc' hcyl'
  /\ (0 <= hc -> 0 <= hcyl -> 0 <= rocket_mass radius hc hcyl).
Proof.
  intros H1 H2. split; [now apply rocket_mass_le | apply rocket_mass_nonneg].
Qed.

Lemma rocket_mass_grows_with_height_witness :
  rocket_mass 5 10 15 <= rocket_mass 5 12 15.
Proof.
  apply (rocket_mass_grows_with_height 5 10 12 15 15); lra.
Defined.

(** X4: the two roundings of [rocket_mass] (of the volume, then of the
    product with the density) keep it within 0.011125 of the density times
    the exact volume [pi * r^2 * (height_cone / 3 + height_cyl)]. *)
Theorem rocket_mass_accuracy (radius height_cone height_cyl : R) :
  Rabs (rocket_mass radius height_cone height_cyl
        - 1.225 * (PI * radius ^ 2 * (height_cone / 3 + height_cyl)))
  <= 0.011125.
Proof.
  unfold rocket_mass, rocket_volume, DENSITY_OF_ROCKET.
  set (v := PI * radius ^ 2 * (height_cone / 3) + PI * radius ^ 2 * height_cyl).
  replace (PI * radius ^ 2 * (height_cone / 3 + height_cyl)) with v
    by (unfold v; field).
  pose proof (round2_near v). pose proof (round2_near (round2 v * 1.225)).
  apply Rabs_le. lra.
Qed.

(** X5: [feet_to_meter] is monotone, and its result is within 0.005 of 3.28
    times its argument. *)
Theorem feet_to_meter_monotone (a b : R) :
  a <= b ->
  feet_to_meter a <= feet_to_meter b
  /\ Rabs (feet_to_meter a - 3.28 * a) <= 0.005.
Proof.
  intros H. unfold feet_to_meter, FEET_TO_METER. split.
  - apply round2_le. lra.
  - pose proof (round2_near (a * 3.28)). apply Rabs_le. lra.
Qed.

Lemma feet_to_meter_monotone_witness :
  feet_to_meter 5.5 <= feet_to_meter 10.
Proof.
  apply (feet_to_meter_monotone 5.5 10). lra.
Defined.

(** X6: the storage space has a square footprint whose side is within
    0.005 of [sqrt(2) * radius], and a height within 0.005 of half the
    cylinder height; for a non-negative radius the diagonal of the
    footprint exceeds the diameter of the rocket by at most 0.01. *)
Theorem storage_space_footprint (radius height_cyl : R) :
  let '(width, length, height) := compute_storage_space radius height_cyl in
  width = length
  /\ Rabs (width - sqrt 2 * radius) <= 0.005
  /\ Rabs (height - height_cyl / 2) <= 0.005
  /\ (0 <= radius -> width ^ 2 + length ^ 2 <= (2 * radius + 0.01) ^ 2).
Proof.
  unfold compute_storage_space.
  pose proof (round2_near (sqrt 2 * radius)) as Hs.
  pose proof (round2_near (height_cyl / 2)) as Hh.
  repeat split.
  - apply Rabs_le. lra.
  - apply Rabs_le. lra.
  - intros Hr.
    pose proof sqrt_2_bounds as Hsq.
    assert (Hsq2 : sqrt 2 * sqrt 2 = 2) by (apply sqrt_def; lra).
    assert (H0 : 0 <= round2 (sqrt 2 * radius)) by (apply round2_nonneg; nra).
    set (side := round2 (sqrt 2 * radius)) in *.
    assert (Hup : side <= sqrt 2 * radius + 0.005) by lra.
    assert (Hside2 : side * side
                     <= (sqrt 2 * radius + 0.005) * (sqrt 2 * radius + 0.005))
      by nra.
    assert (Hexp : (sqrt 2 * radius + 0.005) * (sqrt 2 * radius + 0.005)
                   = 2 * radius * radius + 0.01 * sqrt 2 * radius + 0.000025).
    { replace ((sqrt 2 * radius + 0.005) * (sqrt 2 * radius + 0.005))
        with ((sqrt 2 * sqrt 2) * radius * radius
              + 0.01 * sqrt 2 * radius + 0.000025) by lra.
      rewrite Hsq2. lra. }
    assert (Hlin : sqrt 2 * radius <= 1.41422 * radius) by nra.
    nra.
Qed.

Lemma storage_space_footprint_witness :
  7.07 ^ 2 + 7.07 ^ 2 <= (2 * 5 + 0.01) ^ 2.
Proof.
  pose proof (storage_space_footprint 5 15) as H.
  rewrite compute_storage_space_5_15 in H.
  apply H. lra.
Defined.

(** ** More on [load_rocket] *)

(** What [compute_storage_space] gives [load_rocket] when there is no
    cylinder to speak of. *)
Lemma storage_volume_of_nonpositive (radius height_cyl : R) :
  radius = 0 \/ height_cyl <= 0 -> storage_volume_of radius height_cyl <= 0.
Proof.
  intros H. unfold storage_volume_of, compute_storage_space.
  apply round2_nonpos.
  destruct H as [-> | H].
  - replace (sqrt 2 * 0) with 0 by ring. rewrite round2_0. lra.
  - assert (Hh : round2 (height_cyl / 2) <= 0) by (apply round2_nonpos; lra).
    set (side := round2 (sqrt 2 * radius)).
    assert (0 <= side * side) by nra. nra.
Qed.

(** X7: with a weight that is not positive, a radius of zero or a cylinder
    height that is not positive, the loop of [load_rocket] is never entered:
    nothing is read, nothing is printed and the value is [None]. *)
Theorem load_rocket_nothing_to_load (w radius height_cyl : R) (c : console) :
  w <= 0 \/ radius = 0 \/ height_cyl <= 0 ->
  load_rocket w radius height_cyl c = (Ok (Some PyNone), c).
Proof.
  intros H. rewrite load_rocket_unfold. apply load_loop_exit.
  apply not_true_is_false. intros Htest.
  apply loop_test_true_iff in Htest.
  destruct H as [H | H].
  - loader_arith.
  - apply storage_volume_of_nonpositive in H. loader_arith.
Qed.

Lemma load_rocket_nothing_to_load_witness :
  load_rocket 1763.88 5 0 (mkConsole [Num 20; Num 1; Num 1; Num 1] []) =
  (Ok (Some PyNone), mkConsole [Num 20; Num 1; Num 1; Num 1] []).
Proof.
  apply load_rocket_nothing_to_load. right. right. lra.
Defined.

(** X8: a pass of the loop that rejects its item, by the weight check or by
    the volume check, consumes the four lines of the item, prints the retry
    message and nothing else, goes on to the next loop test, and leaves
    [total_weight] and [total_volume] as they were. *)
Theorem rejection_keeps_totals (w sv : R) (st : load_state) (c : console)
    (item_weight item_width item_length item_height : R)
    (rest : list line) :
  ~ no_room w sv st ->
  stdin c = Num item_weight :: Num item_width :: Num item_length
              :: Num item_height :: rest ->
  weight_rejected w st item_weight
  \/ volume_rejected sv st (item_width * item_length * item_height) ->
  exists st',
    loop_body w sv st c
    = (Ok (Next st'),
       mkConsole rest
         (stdout c ++ [Text "Item could not be added... please try again..."]))
    /\ total_weight st' = total_weight st
    /\ total_volume st' = total_volume st.
Proof.
  intros Hroom Hin Hrej.
  destruct (loop_body_reads_item w sv st c _ _ _ _ rest Hroom Hin)
    as (Hwrej & Hvrej & _).
  destruct (weight_rejected_dec w st item_weight) as [Hw | Hw].
  - eexists. split; [exact (Hwrej Hw) |]. split; reflexivity.
  - destruct Hrej as [Hrej | Hrej]; [contradiction |].
    eexists. split; [exact (Hvrej Hw Hrej) |]. split; reflexivity.
Qed.

Lemma rejection_keeps_totals_witness :
  exists st',
    loop_body 2000 374.89 (load_init 2000 374.89)
      (mkConsole [Num 1000; Num 10; Num 10; Num 1.5] [])
    = (Ok (Next st'),
       mkConsole []
         ([] ++ [Text "Item could not be added... please try again..."]))
    /\ total_weight st' = 2000
    /\ total_volume st' = 374.89.
Proof.
  assert (Hroom : ~ no_room 2000 374.89 (load_init 2000 374.89))
    by loader_arith.
  assert (Hrej : weight_rejected 2000 (load_init 2000 374.89) 1000)
    by loader_arith.
  exact (rejection_keeps_totals 2000 374.89 (load_init 2000 374.89)
           (mkConsole [Num 1000; Num 10; Num 10; Num 1.5] [])
           1000 10 10 1.5 [] Hroom eq_refl (or_introl Hrej)).
Defined.

(** How one pass changes the total weight. *)
Lemma loop_body_total_weight (w sv : R) (st st' : load_state) (c c' : console) :
  0 <= weight_of_all_items st ->
  loop_body w sv st c = (Ok (Next st'), c') ->
  total_weight st' = total_weight st
  \/ (total_weight st + 20 <= total_weight st'
      /\ total_weight st' <= total_weight st + w * 0.05).
Proof.
  intros Hp Hbody.
  destruct (loop_body_next_inv w sv st st' c c' Hbody)
    as [Hroom (iw & a & b & d & Hin)].
  destruct (loop_body_reads_item w sv st c iw a b d (stdin c') Hroom Hin)
    as (Hwrej & Hvrej & Hacc).
  destruct (weight_rejected_dec w st iw) as [Hw | Hw].
  - rewrite (Hwrej Hw) in Hbody. inversion Hbody; subst st'. now left.
  - destruct (volume_rejected_dec sv st (a * b * d)) as [Hv | Hv].
    + rewrite (Hvrej Hw Hv) in Hbody. inversion Hbody; subst st'. now left.
    + rewrite (Hacc Hw Hv) in Hbody. inversion Hbody; subst st'. right.
      loader_arith.
Qed.

Lemma reaches_weight_bounds (w sv : R) (c : console) (st : load_state)
    (c' : console) :
  0 < w ->
  reaches w sv (load_init w sv) c st c' ->
  0 <= weight_of_all_items st <= w * 0.05
  /\ w <= total_weight st < w * 1.1.
Proof.
  intros Hw Hreach.
  induction Hreach as [| st1 c1 st2 c2 Hreach IH Htest Hbody].
  - loader_arith.
  - destruct IH as [Hp Ht]. split.
    + apply (loop_body_keeps_pending_weight w sv st1 st2 c1 c2); auto.
    + apply loop_test_true_iff in Htest.
      destruct (loop_body_total_weight w sv st1 st2 c1 c2) as [H | H];
        auto; try lra; loader_arith.
Qed.

(** X9: for a rocket of positive weight, in every state the loop arrives
    at the total weight is at least the initial weight and below 1.1 times
    it: an accepted item can take the total past the 5% cap of the loop
    test, by less than another 5%.  Where the loop test holds it is below
    1.05 times the initial weight. *)
Theorem total_weight_overshoot (w sv : R) (c : console) (st : load_state)
    (c' : console) :
  0 < w ->
  reaches w sv (load_init w sv) c st c' ->
  w <= total_weight st < w * 1.1
  /\ (loop_test w sv st = true -> total_weight st < w * 1.05).
Proof.
  intros Hw Hreach. split.
  - now apply (reaches_weight_bounds w sv c st c').
  - intros Htest. apply loop_test_true_iff in Htest. loader_arith.
Qed.

Lemma reaches_prepend (w sv : R) (st st1 st2 : load_state)
    (c c1 c2 : console) :
  loop_test w sv st = true ->
  loop_body w sv st c = (Ok (Next st1), c1) ->
  reaches w sv st1 c1 st2 c2 ->
  reaches w sv st c st2 c2.
Proof.
  intros Htest Hbody Hreach.
  induction Hreach as [| sta ca stb cb Hreach IH Htesta Hbodya].
  - eapply reaches_pass; [apply reaches_refl | assumption | assumption].
  - eapply reaches_pass; eassumption.
Qed.

Lemma loop_body_return_inv (w sv : R) (st : load_state) (c c' : console)
    (v : pyval) :
  loop_body w sv st c = (Ok (Return v), c') ->
  v = PyFloat (round2 (total_weight st)).
Proof.
  intros Hbody.
  destruct (no_room_dec w sv st) as [Hroom | Hroom].
  { rewrite (loop_body_no_room w sv st c Hroom) in Hbody. now inversion Hbody. }
  destruct (stdin c) as [| l0 rest0] eqn:Hin.
  { rewrite (loop_body_eof w sv st c Hroom Hin) in Hbody. discriminate. }
  destruct l0 as [| item_weight |].
  { rewrite (loop_body_done w sv st c rest0 Hroom Hin) in Hbody.
    now inversion Hbody. }
  - unfold no_room in Hroom. unfold loop_body in Hbody.
    rewrite !(proj2 (Rltb_false_iff _ _)) in Hbody by lra.
    unfold io_bind, input, float, raise, ret, print in Hbody.
    rewrite Hin in Hbody.
    destruct rest0 as [| [| item_width |] rest1];
      cbn [stdin stdout] in Hbody; try discriminate.
    destruct rest1 as [| [| item_length |] rest2];
      cbn [stdin stdout] in Hbody; try discriminate.
    destruct rest2 as [| [| item_height |] rest3];
      cbn [stdin stdout] in Hbody; try discriminate.
    repeat match type of Hbody with
           | context [if ?b then _ else _] => destruct b
           end; cbn [stdin stdout] in Hbody; discriminate.
  - unfold no_room in Hroom. unfold loop_body in Hbody.
    rewrite !(proj2 (Rltb_false_iff _ _)) in Hbody by lra.
    unfold io_bind, input, float, raise in Hbody. rewrite Hin in Hbody.
    discriminate.
Qed.

(** Where a returned value comes from. *)
Lemma load_loop_returned (w sv : R) (fuel : nat) (st : load_state)
    (c c' : console) (v : pyval) :
  load_loop w sv fuel st c = (Ok (Some v), c') ->
  (exists st1, reaches w sv st c st1 c' /\ loop_test w sv st1 = false
               /\ v = PyNone)
  \/ (exists st1 c1, reaches w sv st c st1 c1 /\ loop_test w sv st1 = true
                     /\ v = PyFloat (round2 (total_weight st1))).
Proof.
  revert st c. induction fuel as [| fuel IH]; intros st c Hrun.
  { discriminate. }
  destruct (loop_test w sv st) eqn:Htest.
  - destruct (loop_body w sv st c) as [[[st1 | v1] | e] c1] eqn:Hbody.
    + rewrite (load_loop_next w sv fuel st st1 c c1 Htest Hbody) in Hrun.
      destruct (IH st1 c1 Hrun) as [(st2 & Hr & Ht & Hv)
                                   | (st2 & c2 & Hr & Ht & Hv)].
      * left. exists st2. split; [| now split].
        now apply (reaches_prepend w sv st st1 st2 c c1 c').
      * right. exists st2, c2. split; [| now split].
        now apply (reaches_prepend w sv st st1 st2 c c1 c2).
    + rewrite (load_loop_return w sv fuel st c c1 v1 Htest Hbody) in Hrun.
      inversion Hrun; subst. right. exists st, c.
      split; [apply reaches_refl | split; [assumption |]].
      now apply (loop_body_return_inv w sv st c c').
    + rewrite (load_loop_raise w sv fuel st c c1 e Htest Hbody) in Hrun.
      discriminate.
  - rewrite (load_loop_exit w sv fuel st c Htest) in Hrun.
    inversion Hrun; subst. left. exists st.
    split; [apply reaches_refl | now split].
Qed.

Lemma reaches_weight_lower (w sv : R) (c : console) (st : load_state)
    (c' : console) :
  reaches w sv (load_init w sv) c st c' ->
  0 <= weight_of_all_items st /\ w <= total_weight st.
Proof.
  intros Hreach.
  induction Hreach as [| st1 c1 st2 c2 Hreach IH Htest Hbody].
  - loader_arith.
  - destruct IH as [Hp Ht].
    destruct (loop_body_next_inv w sv st1 st2 c1 c2 Hbody)
      as [Hroom (iw & a & b & d & Hin)].
    destruct (loop_body_reads_item w sv st1 c1 iw a b d (stdin c2) Hroom Hin)
      as (Hwrej & Hvrej & Hacc).
    destruct (weight_rejected_dec w st1 iw) as [Hw | Hw].
    + rewrite (Hwrej Hw) in Hbody. inversion Hbody; subst st2. loader_arith.
    + destruct (volume_rejected_dec sv st1 (a * b * d)) as [Hv | Hv].
      * rewrite (Hvrej Hw Hv) in Hbody. inversion Hbody; subst st2.
        loader_arith.
      * rewrite (Hacc Hw Hv) in Hbody. inversion Hbody; subst st2.
        loader_arith.
Qed.

(** X10: whenever [load_rocket] returns a number, it lies between the
    initial weight and 1.05 times the initial weight, both rounded to two
    decimals. *)
Theorem returned_weight_bounds (w radius height_cyl : R) (c c' : console)
    (v : R) :
  load_rocket w radius height_cyl c = (Ok (Some (PyFloat v)), c') ->
  round2 w <= v <= round2 (w * 1.05).
Proof.
  rewrite load_rocket_unfold. intros Hrun.
  apply load_loop_returned in Hrun.
  destruct Hrun as [(st1 & _ & _ & Hv) | (st1 & c1 & Hreach & Htest & Hv)];
    [discriminate |].
  inversion Hv; subst v.
  apply reaches_weight_lower in Hreach. destruct Hreach as [_ Hlo].
  apply loop_test_true_iff in Htest. destruct Htest as [Hhi _].
  split; apply round2_le; loader_arith.
Qed.

Lemma returned_weight_bounds_witness :
  round2 62242.78 <= 62342.78 <= round2 (62242.78 * 1.05).
Proof.
  exact (returned_weight_bounds 62242.78 16.4 49.2 _ _ _
           load_rocket_docstring_session).
Defined.

Lemma total_weight_overshoot_witness :
  2000 <= 2000 + (0 + 20) < 2000 * 1.1.
Proof.
  assert (Hw : 0 < 2000) by lra.
  assert (Hreach :
    reaches 2000 374.89 (load_init 2000 374.89)
      (mkConsole [Num 20; Num 1; Num 1; Num 1; Done] [])
      (mkLoad (2000 + (0 + 20)) (374.89 + (0 + 1 * 1 * 1))
         (0 + 20) (0 + 1 * 1 * 1))
      (mkConsole [Done] [])).
  { eapply reaches_pass.
    - apply reaches_refl.
    - apply loop_test_true_iff. loader_arith.
    - exact first_item_accepted. }
  exact (proj1 (total_weight_overshoot 2000 374.89 _ _ _ Hw Hreach)).
Defined.

(** X11: the text Done ends the loading at the weight prompt only.  When a
    pass asks for an item: an exhausted input raises [EOFError]; a weight
    that is not a number raises [ValueError]; after a weight, Done or any
    other text that is not a number at one of the three dimension prompts
    raises [ValueError], and an input that ends before the third dimension
    raises [EOFError]. *)
Theorem item_lines_faults (w sv : R) (fuel : nat) (st : load_state)
    (c : console) :
  loop_test w sv st = true ->
  ~ no_room w sv st ->
  (stdin c = [] -> load_loop w sv (S fuel) st c = (Raise EOFError, c))
  /\ (forall rest, stdin c = Junk :: rest ->
        load_loop w sv (S fuel) st c
        = (Raise ValueError, mkConsole rest (stdout c)))
  /\ (forall item_weight dims bad rest,
        stdin c = Num item_weight :: map Num dims ++ bad :: rest ->
        (List.length dims < 3)%nat -> bad = Done \/ bad = Junk ->
        load_loop w sv (S fuel) st c
        = (Raise ValueError, mkConsole rest (stdout c)))
  /\ (forall item_weight dims,
        stdin c = Num item_weight :: map Num dims ->
        (List.length dims < 3)%nat ->
        load_loop w sv (S fuel) st c
        = (Raise EOFError, mkConsole [] (stdout c))).
Proof.
  intros Htest Hroom.
  assert (Hbody : forall r c', loop_body w sv st c = (Raise r, c') ->
            load_loop w sv (S fuel) st c = (Raise r, c')).
  { intros r c'. now apply load_loop_raise. }
  assert (Hunfold : loop_body w sv st c =
    io_bind input (fun item_weight =>
     match item_weight with
     | Done => ret (Return (PyFloat (round2 (total_weight st))))
     | _ =>
       (item_weight <- float item_weight ;;
        item_width <- (l <- input ;; float l) ;;
        item_length <- (l <- input ;; float l) ;;
        item_height <- (l <- input ;; float l) ;;
        let item_volume := item_width * item_length * item_height in
        let weight_of_all_items := weight_of_all_items st + item_weight in
        let volume_of_all_items := volume_of_all_items st + item_volume in
        if (item_weight <? MIN_BOX_WEIGHT) || (item_weight >? MAX_BOX_WEIGHT)
           || (weight_of_all_items >? w * WEIGHT_THRESHOLD_MAXIMUM) then
          let weight_of_all_items := weight_of_all_items - item_weight in
          print (Text "Item could not be added... please try again...") ;;
          ret (Next (mkLoad (total_weight st) (total_volume st)
                       weight_of_all_items volume_of_all_items))
        else if (item_volume <? MIN_BOX_VOLUME)
                || (volume_of_all_items >? sv * VOLUME_THRESHOLD_MAXIMUM) then
          let volume_of_all_items := volume_of_all_items - item_volume in
          print (Text "Item could not be added... please try again...") ;;
          ret (Next (mkLoad (total_weight st) (total_volume st)
                       weight_of_all_items volume_of_all_items))
        else
          let total_weight := total_weight st + weight_of_all_items in
          let total_volume := total_volume st + volume_of_all_items in
          ret (Next (mkLoad total_weight total_volume
                       weight_of_all_items volume_of_all_items)))%io
     end) c).
  { unfold no_room in Hroom. unfold loop_body.
    now rewrite !(proj2 (Rltb_false_iff _ _)) by lra. }
  repeat split.
  - intros Hin. apply Hbody. now apply loop_body_eof.
  - intros rest Hin. apply Hbody. rewrite Hunfold.
    unfold io_bind, input, float, raise. now rewrite Hin.
  - intros item_weight dims bad rest Hin Hlen Hbad. apply Hbody.
    rewrite Hunfold. unfold io_bind, input, float, raise, ret.
    rewrite Hin.
    destruct dims as [| d1 [| d2 [| d3 dims]]];
      cbn [map app stdin stdout List.length] in *; try lia;
      destruct Hbad as [-> | ->]; reflexivity.
  - intros item_weight dims Hin Hlen. apply Hbody.
    rewrite Hunfold. unfold io_bind, input, float, raise, ret.
    rewrite Hin.
    destruct dims as [| d1 [| d2 [| d3 dims]]];
      cbn [map app stdin stdout List.length] in *; try lia; reflexivity.
Qed.

Lemma item_lines_faults_witness :
  load_loop 2000 374.89 1 (load_init 2000 374.89)
    (mkConsole [Num 20; Num 1; Done; Num 1] [])
  = (Raise ValueError, mkConsole [Num 1] []).
Proof.
  assert (Htest : loop_test 2000 374.89 (load_init 2000 374.89) = true)
    by (apply loop_test_true_iff; loader_arith).
  assert (Hroom : ~ no_room 2000 374.89 (load_init 2000 374.89))
    by loader_arith.
  destruct (item_lines_faults 2000 374.89 0 (load_init 2000 374.89)
              (mkConsole [Num 20; Num 1; Done; Num 1] []) Htest Hroom)
    as (_ & _ & Hbad & _).
  apply (Hbad 20 [1] Done [Num 1]).
  - reflexivity.
  - cbn [List.length]. lia.
  - now left.
Defined.

(** X12: [load_rocket] called with a [rocket_mass] as initial weight, as
    [rocket_main] does, and answered Done at once returns that very mass:
    the rounding of the return value does not change a mass that is already
    rounded.  This holds whether the exit is the Done line or the pre-check
    that leaves it unread. *)
Theorem done_at_once_returns_mass
    (radius height_cone height_cyl : R) (c : console) (rest : list line) :
  let mass := rocket_mass radius height_cone height_cyl in
  0 < mass -> 0 < storage_volume_of radius height_cyl ->
  stdin c = Done :: rest ->
  exists c',
    load_rocket mass radius height_cyl c = (Ok (Some (PyFloat mass)), c')
    /\ (stdin c' = rest \/ stdin c' = Done :: rest).
Proof.
  intros mass Hm Hsv Hin. rewrite load_rocket_unfold.
  set (sv := storage_volume_of radius height_cyl) in *.
  assert (Htest : loop_test mass sv (load_init mass sv) = true)
    by (apply loop_test_true_iff; loader_arith).
  assert (Hround : round2 (total_weight (load_init mass sv)) = mass)
    by apply rocket_mass_rounded.
  destruct (no_room_dec mass sv (load_init mass sv)) as [Hroom | Hroom].
  - eexists. split.
    + rewrite (no_room_exit mass sv _ _ c Htest Hroom). now rewrite Hround.
    + right. exact Hin.
  - eexists. split.
    + rewrite (load_loop_return mass sv _ _ c _ _ Htest
                 (loop_body_done mass sv _ c rest Hroom Hin)).
      now rewrite Hround.
    + now left.
Qed.

Lemma done_at_once_returns_mass_witness :
  exists c',
    load_rocket (rocket_mass 5 10 15) 5 15 (mkConsole [Done] [])
    = (Ok (Some (PyFloat (rocket_mass 5 10 15))), c')
    /\ (stdin c' = [] \/ stdin c' = [Done]).
Proof.
  apply (done_at_once_returns_mass 5 10 15 (mkConsole [Done] []) []).
  - rewrite rocket_mass_5_10_15. lra.
  - rewrite storage_volume_of_5_15. lra.
  - reflexivity.
Defined.

Lemma kept_reaches_reaches (w sv : R) (st : load_state) (c : console)
    (n : nat) (st' : load_state) (c' : console) :
  kept_reaches w sv st c n st' c' -> reaches w sv st c st' c'.
Proof.
  intros H. induction H.
  - apply reaches_refl.
  - eapply reaches_pass; eassumption.
Qed.

Lemma kept_pending_weight (w sv : R) (c : console) (n : nat)
    (st : load_state) (c' : console) :
  kept_reaches w sv (load_init w sv) c n st c' ->
  20 * INR n <= weight_of_all_items st
  /\ ((0 < n)%nat -> weight_of_all_items st <= w * 0.05).
Proof.
  intros H.
  induction H as [| n st1 c1 st2 c2 iw rest H IH Htest Hbody Hin Hrej].
  - split; [cbn [INR]; loader_arith | lia].
  - destruct IH as [IH1 IH2].
    destruct (loop_body_next_inv w sv st1 st2 c1 c2 Hbody)
      as [Hroom (iw' & a & b & d & Hin')].
    rewrite Hin in Hin'. inversion Hin'; subst iw'.
    destruct (loop_body_reads_item w sv st1 c1 iw a b d (stdin c2) Hroom)
      as (_ & Hvrej & Hacc).
    { now rewrite Hin. }
    rewrite S_INR.
    destruct (volume_rejected_dec sv st1 (a * b * d)) as [Hv | Hv].
    + rewrite (Hvrej Hrej Hv) in Hbody. inversion Hbody; subst st2.
      split; [| intros _]; loader_arith.
    + rewrite (Hacc Hrej Hv) in Hbody. inversion Hbody; subst st2.
      split; [| intros _]; loader_arith.
Qed.

(** X13: as long as no item has been rejected for its weight, the pending
    weight is at least 20 times the number of items read so far (each one
    accepted or rejected for its volume), so that number never exceeds the
    weight budget divided by 20. *)
Theorem items_past_weight_check_bounded (w sv : R) (c : console) (n : nat)
    (st : load_state) (c' : console) :
  kept_reaches w sv (load_init w sv) c n st c' ->
  20 * INR n <= weight_of_all_items st
  /\ 20 * INR n <= Rmax 0 (w * 0.05).
Proof.
  intros H. destruct (kept_pending_weight w sv c n st c' H) as [H1 H2].
  split; [assumption |].
  destruct n as [| n].
  - cbn [INR]. rewrite Rmult_0_r. apply Rmax_l.
  - eapply Rle_trans; [| apply Rmax_r].
    eapply Rle_trans; [exact H1 | apply H2; lia].
Qed.

Lemma items_past_weight_check_bounded_witness :
  20 * INR 1 <= 0 + 20 /\ 20 * INR 1 <= Rmax 0 (2000 * 0.05).
Proof.
  apply (items_past_weight_check_bounded 2000 374.89
           (mkConsole [Num 20; Num 1; Num 1; Num 1; Done] []) 1
           (mkLoad (2000 + (0 + 20)) (374.89 + (0 + 1 * 1 * 1))
              (0 + 20) (0 + 1 * 1 * 1))
           (mkConsole [Done] [])).
  eapply kept_passed.
  - apply kept_refl.
  - apply loop_test_true_iff. loader_arith.
  - exact first_item_accepted.
  - reflexivity.
  - loader_arith.
Defined.

Lemma loaded_reaches_reaches (w sv : R) (st : load_state) (c : console)
    (n : nat) (st' : load_state) (c' : console) :
  loaded_reaches w sv st c n st' c' -> reaches w sv st c st' c'.
Proof.
  intros H. induction H.
  - apply reaches_refl.
  - eapply reaches_pass; eassumption.
  - eapply reaches_pass; eassumption.
Qed.

Lemma loaded_growth (w sv : R) (c : console) (n : nat)
    (st : load_state) (c' : console) :
  loaded_reaches w sv (load_init w sv) c n st c' ->
  20 * INR n <= weight_of_all_items st
  /\ w + 10 * INR n * (INR n + 1) <= total_weight st.
Proof.
  intros H.
  induction H as [| n st1 c1 st2 c2 iw a b d rest H IH Htest Hbody Hin Hw Hv
                  | n st1 c1 st2 c2 iw a b d rest H IH Htest Hbody Hin Hw Hv].
  - cbn [INR]. loader_arith.
  - destruct IH as [IH1 IH2].
    destruct (loop_body_next_inv w sv st1 st2 c1 c2 Hbody) as [Hroom _].
    destruct (loop_body_reads_item w sv st1 c1 iw a b d rest Hroom Hin)
      as (_ & Hvrej & _).
    rewrite (Hvrej Hw Hv) in Hbody. inversion Hbody; subst st2.
    split; loader_arith.
  - destruct IH as [IH1 IH2].
    destruct (loop_body_next_inv w sv st1 st2 c1 c2 Hbody) as [Hroom _].
    destruct (loop_body_reads_item w sv st1 c1 iw a b d rest Hroom Hin)
      as (_ & _ & Hacc).
    rewrite (Hacc Hw Hv) in Hbody. inversion Hbody; subst st2.
    rewrite S_INR.
    assert (Hiw : 20 <= iw) by loader_arith.
    cbn [weight_of_all_items total_weight]. split; [lra | nra].
Qed.

(** X14: every accepted item adds the whole pending weight to the total, so
    as long as no item has been rejected for its weight, after [n] accepted
    items (and any number rejected for their volume) the total weight is at
    least the initial weight plus [10 * n * (n + 1)]; as the total stays
    below 1.1 times the initial weight, [10 * n * (n + 1)] is below a tenth
    of the initial weight. *)
Theorem accepted_items_compound (w sv : R) (c : console) (n : nat)
    (st : load_state) (c' : console) :
  0 < w ->
  loaded_reaches w sv (load_init w sv) c n st c' ->
  w + 10 * INR n * (INR n + 1) <= total_weight st
  /\ 10 * INR n * (INR n + 1) < w * 0.1.
Proof.
  intros Hw H.
  destruct (loaded_growth w sv c n st c' H) as [_ Hgrow].
  split; [assumption |].
  apply loaded_reaches_reaches in H.
  destruct (reaches_weight_bounds w sv c st c' Hw H) as [_ [_ Hup]].
  lra.
Qed.

Lemma accepted_items_compound_witness :
  2000 + 10 * INR 1 * (INR 1 + 1) <= 2000 + (0 + 20)
  /\ 10 * INR 1 * (INR 1 + 1) < 2000 * 0.1.
Proof.
  assert (Hw : 0 < 2000) by lra.
  apply (accepted_items_compound 2000 374.89
           (mkConsole [Num 20; Num 1; Num 1; Num 1; Done] []) 1
           (mkLoad (2000 + (0 + 20)) (374.89 + (0 + 1 * 1 * 1))
              (0 + 20) (0 + 1 * 1 * 1))
           (mkConsole [Done] []) Hw).
  eapply (loaded_accepted 2000 374.89 _ _ 0 _ _ _ _ 20 1 1 1 [Done]).
  - apply loaded_refl.
  - apply loop_test_true_iff. loader_arith.
  - exact first_item_accepted.
  - reflexivity.
  - loader_arith.
  - loader_arith.
Defined.


(** ** More on [projectile_sim] *)

Lemma emitted_nonneg (heights : list R) : Forall (fun x => 0 <= x) (emitted heights).
Proof.
  induction heights as [| h rest IH]; cbn [emitted]; [constructor |].
  destruct (Rlt_dec h 0) as [H | H].
  - rewrite (proj2 (Rltb_true_iff _ _) H). constructor.
  - rewrite (proj2 (Rltb_false_iff _ _)) by lra.
    constructor; [apply round2_nonneg; lra | assumption].
Qed.

Lemma emitted_length (heights : list R) :
  (List.length (emitted heights) <= List.length heights)%nat.
Proof.
  induction heights as [| h rest IH]; cbn [emitted List.length]; [lia |].
  destruct (h <? 0); cbn [List.length]; lia.
Qed.

Lemma range_length (a b : Z) : List.length (range a b) = Z.to_nat (b - a).
Proof. unfold range. now rewrite length_map, length_seq. Qed.

(** X15: for a nonzero interval [projectile_sim] prints only heights that
    are not negative, at most [int(simulation_time / interval) + 1] of them,
    reads nothing and returns [None]. *)
Theorem projectile_sim_prints_nonneg
    (simulation_time interval velocity_i angle : R) (c : console) :
  interval <> 0 ->
  exists heights,
    projectile_sim simulation_time interval velocity_i angle c
    = (Ok PyNone, mkConsole (stdin c) (stdout c ++ map Number heights))
    /\ Forall (fun x => 0 <= x) heights
    /\ (List.length heights
        <= Z.to_nat (py_int (simulation_time / interval) + 1))%nat.
Proof.
  intros Hi.
  exists (trajectory interval velocity_i angle
            (py_int (simulation_time / interval))).
  split; [now apply projectile_sim_prints | split].
  - apply emitted_nonneg.
  - unfold trajectory.
    eapply Nat.le_trans; [apply emitted_length |].
    rewrite length_map, range_length. lia.
Qed.

Lemma spec_height_0 (interval v angle : R) : spec_height interval v angle 0 = 0.
Proof. unfold spec_height. cbn zeta. ring_simplify. lra. Qed.

Lemma range_nil (a b : Z) : (b <= a)%Z -> range a b = [].
Proof.
  intros H. unfold range. now replace (Z.to_nat (b - a)) with 0%nat by lia.
Qed.

Lemma range_succ (a b : Z) : (a < b)%Z -> range a b = a :: range (a + 1) b.
Proof.
  intros H. unfold range.
  replace (Z.to_nat (b - a)) with (S (Z.to_nat (b - (a + 1)))) by lia.
  cbn [seq map]. f_equal; [lia |].
  rewrite <- seq_shift, map_map. apply map_ext. intros i. lia.
Qed.

(** When the heights turn negative after step [K] and stay so, the printed
    ones are those of the steps up to [K]. *)
Lemma emitted_range (h : Z -> R) (K : Z) (n : nat) (a b : Z) :
  Z.to_nat (b - a) = n ->
  (forall k, (a <= k)%Z -> h k < 0 <-> (K < k)%Z) ->
  emitted (map h (range a b))
  = map (fun k => round2 (h k)) (range a (Z.min b (K + 1))).
Proof.
  revert a. induction n as [| n IH]; intros a Hn Hneg.
  - rewrite !range_nil by lia. reflexivity.
  - rewrite (range_succ a b) by lia. cbn [map emitted].
    destruct (Rlt_dec (h a) 0) as [Hh | Hh].
    + rewrite (proj2 (Rltb_true_iff _ _) Hh).
      apply Hneg in Hh; [| lia]. now rewrite range_nil by lia.
    + rewrite (proj2 (Rltb_false_iff _ _)) by lra.
      assert (HaK : (a <= K)%Z).
      { destruct (Z_lt_le_dec K a) as [H | H]; [| assumption].
        apply Hneg in H; [contradiction | lia]. }
      rewrite (range_succ a (Z.min b (K + 1))) by lia. cbn [map]. f_equal.
      apply IH; [lia |]. intros k Hk. apply Hneg. lia.
Qed.

Lemma spec_height_factor (interval v angle : R) (k : Z) :
  spec_height interval v angle k
  = IZR k * interval * (v * sin angle - 0.5 * 9.81 * (IZR k * interval)).
Proof. unfold spec_height. cbn zeta. lra. Qed.

Lemma height_negative_iff (interval v angle : R) (k : Z) :
  0 < interval -> 0 <= v * sin angle -> (0 <= k)%Z ->
  spec_height interval v angle k < 0
  <-> (Zfloor (v * sin angle / (0.5 * 9.81 * interval)) < k)%Z.
Proof.
  intros Hi Hvs Hk. rewrite spec_height_factor.
  set (vs := v * sin angle) in *.
  set (q := vs / (0.5 * 9.81 * interval)).
  assert (Hd : 0 < 0.5 * 9.81 * interval) by lra.
  assert (Hq : vs = q * (0.5 * 9.81 * interval)).
  { unfold q. field. lra. }
  pose proof (Zfloor_bound q) as [Hf1 Hf2].
  assert (Hk0 : 0 <= IZR k) by now apply IZR_le.
  split.
  - intros Hneg.
    apply lt_IZR.
    destruct (Rle_lt_dec (IZR k) q) as [Hle | Hlt]; [exfalso | lra].
    assert (0 <= IZR k * interval) by nra.
    assert (0 <= vs - 0.5 * 9.81 * (IZR k * interval)) by (rewrite Hq; nra).
    nra.
  - intros Hlt.
    assert (Hk1 : (Zfloor q + 1 <= k)%Z) by lia.
    apply IZR_le in Hk1. rewrite plus_IZR in Hk1.
    assert (Hqk : q < IZR k) by lra.
    assert (Hq0 : 0 <= q).
    { unfold q. apply Rmult_le_pos; [assumption |].
      left. now apply Rinv_0_lt_compat. }
    assert (0 < IZR k * interval) by nra.
    assert (vs - 0.5 * 9.81 * (IZR k * interval) < 0) by (rewrite Hq; nra).
    nra.
Qed.

(** X17: for a positive interval and a launch that does not point
    downward ([velocity_i * sin(angle) >= 0]) the heights printed are those
    of the steps [0 .. min(int(simulation_time / interval), landing)], where
    [landing] is the last step before the projectile is back on the ground,
    [floor(velocity_i * sin(angle) / (0.5 * 9.81 * interval))]. *)
Theorem projectile_sim_stops_at_landing
    (simulation_time interval velocity_i angle : R) (c : console) :
  0 < interval -> 0 <= velocity_i * sin angle ->
  let steps := py_int (simulation_time / interval) in
  let landing :=
    Zfloor (velocity_i * sin angle / (0.5 * 9.81 * interval)) in
  projectile_sim simulation_time interval velocity_i angle c
  = (Ok PyNone,
     mkConsole (stdin c)
       (stdout c ++ map Number
          (map (fun k => round2 (spec_height interval velocity_i angle k))
             (range 0 (Z.min steps landing + 1))))).
Proof.
  intros Hi Hvs steps landing.
  rewrite projectile_sim_prints by lra. fold steps.
  unfold trajectory.
  rewrite (emitted_range (spec_height interval velocity_i angle) landing
             (Z.to_nat (steps + 1 - 0)) 0 (steps + 1) eq_refl).
  - now rewrite Z.add_min_distr_r.
  - intros k Hk. now apply height_negative_iff.
Qed.

Lemma projectile_sim_stops_at_landing_witness :
  projectile_sim 10 1 30 0.785 (mkConsole [] [])
  = (Ok PyNone,
     mkConsole []
       (map Number
          (map (fun k => round2 (spec_height 1 30 0.785 k))
             (range 0 (Z.min (py_int (10 / 1))
                         (Zfloor (30 * sin 0.785 / (0.5 * 9.81 * 1))) + 1))))).
Proof.
  apply (projectile_sim_stops_at_landing 10 1 30 0.785 (mkConsole [] [])).
  - lra.
  - pose proof sin_0785_bounds. lra.
Defined.

Lemma py_int_above_minus_one (q : R) : -1 < q -> (0 <= py_int q)%Z.
Proof.
  intros Hq. unfold py_int. destruct (Rle_dec 0 q) as [H | H].
  - rewrite (proj2 (Rleb_true_iff _ _) H). apply Zfloor_lub. exact H.
  - rewrite (proj2 (Rleb_false_iff _ _)) by lra.
    rewrite (Zceil_eq 0 q) by lra. lia.
Qed.

(** X16: for a nonzero interval and a quotient [simulation_time /
    interval] above -1 the first height printed is 0.0, that of step 0. *)
Theorem projectile_sim_starts_at_zero
    (simulation_time interval velocity_i angle : R) (c : console) :
  interval <> 0 -> -1 < simulation_time / interval ->
  exists later,
    projectile_sim simulation_time interval velocity_i angle c
    = (Ok PyNone,
       mkConsole (stdin c) (stdout c ++ Number 0 :: map Number later)).
Proof.
  intros Hi Hq. rewrite projectile_sim_prints by assumption.
  apply py_int_above_minus_one in Hq.
  unfold trajectory. rewrite range_succ by lia. cbn [map emitted].
  rewrite spec_height_0.
  rewrite (proj2 (Rltb_false_iff 0 0)) by lra. rewrite round2_0.
  eexists. reflexivity.
Qed.

Lemma projectile_sim_prints_nonneg_witness :
  exists heights,
    projectile_sim 5 2 30 0.785 (mkConsole [] [])
    = (Ok PyNone, mkConsole [] ([] ++ map Number heights))
    /\ Forall (fun x => 0 <= x) heights
    /\ (List.length heights <= Z.to_nat (py_int (5 / 2) + 1))%nat.
Proof.
  apply (projectile_sim_prints_nonneg 5 2 30 0.785 (mkConsole [] [])). lra.
Defined.

Lemma projectile_sim_starts_at_zero_witness :
  exists later,
    projectile_sim 5 2 30 0.785 (mkConsole [] [])
    = (Ok PyNone, mkConsole [] ([] ++ Number 0 :: map Number later)).
Proof.
  apply (projectile_sim_starts_at_zero 5 2 30 0.785 (mkConsole [] [])); lra.
Defined.

(** X18: for a positive interval, a launch that does not point upward
    ([velocity_i * sin(angle) <= 0]) prints the height 0.0 of step 0 and
    nothing else. *)
Theorem projectile_sim_not_upward
    (simulation_time interval velocity_i angle : R) (c : console) :
  0 < interval -> velocity_i * sin angle <= 0 ->
  -1 < simulation_time / interval ->
  projectile_sim simulation_time interval velocity_i angle c
  = (Ok PyNone, mkConsole (stdin c) (stdout c ++ [Number 0])).
Proof.
  intros Hi Hvs Hq. rewrite projectile_sim_prints by lra.
  apply py_int_above_minus_one in Hq.
  set (steps := py_int (simulation_time / interval)) in *.
  unfold trajectory.
  rewrite (emitted_range (spec_height interval velocity_i angle) 0
             (Z.to_nat (steps + 1 - 0)) 0 (steps + 1) eq_refl).
  - replace (Z.min (steps + 1) (0 + 1)) with 1%Z by lia.
    change (range 0 1) with [0%Z]. cbn [map].
    now rewrite spec_height_0, round2_0.
  - intros k Hk. rewrite spec_height_factor. split.
    + intros Hneg. destruct (Z.eq_dec k 0) as [-> | Hk0]; [| lia].
      exfalso. lra.
    + intros Hk0. assert (Hk1 : (1 <= k)%Z) by lia.
      apply IZR_le in Hk1.
      assert (0 < IZR k * interval) by nra.
      assert (velocity_i * sin angle - 0.5 * 9.81 * (IZR k * interval) < 0)
        by nra.
      nra.
Qed.

Lemma projectile_sim_not_upward_witness :
  projectile_sim 10 1 30 0 (mkConsole [] [])
  = (Ok PyNone, mkConsole [] [Number 0]).
Proof.
  apply (projectile_sim_not_upward 10 1 30 0 (mkConsole [] [])).
  - lra.
  - rewrite sin_0. lra.
  - lra.
Defined.


(** ** More on [rocket_fuel] and [calculate_cost] *)




(** X20: [rocket_fuel] depends on the two velocities through their
    quotient only: multiplying both by the same nonzero factor does not
    change the fuel. *)
Theorem rocket_fuel_velocity_ratio
    (radius height_cone height_cyl velocity_e velocity_i flight_time k : R) :
  k <> 0 -> velocity_e <> 0 ->
  rocket_fuel radius height_cone height_cyl
    (k * velocity_e) (k * velocity_i) flight_time
  = rocket_fuel radius height_cone height_cyl
      velocity_e velocity_i flight_time.
Proof.
  intros Hk Hve.
  assert (Hkve : k * velocity_e <> 0) by now apply Rmult_integral_contrapositive.
  rewrite !rocket_fuel_nonzero by assumption.
  replace (k * velocity_i / (k * velocity_e)) with (velocity_i / velocity_e)
    by (field; split; assumption).
  reflexivity.
Qed.

Lemma rocket_fuel_velocity_ratio_witness :
  rocket_fuel 5 10 15 (2 * 1250) (2 * 1500) 120
  = rocket_fuel 5 10 15 1250 1500 120.
Proof.
  apply (rocket_fuel_velocity_ratio 5 10 15 1250 1500 120 2); lra.
Defined.

(** ** The session [rocket_main] *)

Section SessionFacts.

Variable py_str : pyval -> string.
Variable int_of_line : line -> result Z.

(** The eight trip lines are read and converted. *)
Lemma rocket_main_reads_trip (c : console)
    (radius height_cone height_cyl velocity_e velocity_i angle flight_time : R)
    (flag : line) (tax : Z) (rest : list line) :
  stdin c = Num radius :: Num height_cone :: Num height_cyl :: Num velocity_e
              :: Num velocity_i :: Num angle :: Num flight_time :: flag :: rest ->
  int_of_line flag = Ok tax ->
  rocket_main py_str int_of_line c =
  (let radius := feet_to_meter radius in
   let height_cone := feet_to_meter height_cone in
   let height_cyl := feet_to_meter height_cyl in
   cost <- lift (calculate_cost radius height_cone height_cyl velocity_e
                   velocity_i flight_time (PyInt tax)) ;;
   print (Text ("This trip will cost $" ++ py_str (PyFloat cost))) ;;
   print (Text "Now loading the rocket:") ;;
   let rocket_initial_weight := rocket_mass radius height_cone height_cyl in
   loaded <- load_rocket rocket_initial_weight radius height_cyl ;;
   match loaded with
   | None => ret None
   | Some weight =>
     print (Text ("The rocket and its equipment will weigh "
                  ++ py_str weight ++ "kg")) ;;
     simulation_time <- (l <- input ;; float l) ;;
     interval <- (l <- input ;; float l) ;;
     print (Text "Now simulating the rocket trajectory:") ;;
     projectile_sim simulation_time interval velocity_i angle ;;
     ret (Some PyNone)
   end)%io
    (mkConsole rest (stdout c ++ [Text "Welcome to the Rocket Simulation!"])).
Proof.
  intros Hin Hflag.
  unfold rocket_main.
  unfold io_bind at 1. unfold print at 1.
  unfold io_bind at 1. unfold io_bind at 1. unfold input at 1.
  cbn [stdin stdout]. rewrite Hin.
  unfold io_bind at 1. unfold float at 1, ret at 1. unfold ret at 1.
  do 2 (unfold io_bind at 1; unfold io_bind at 1; unfold input at 1;
        cbn [stdin stdout];
        unfold io_bind at 1; unfold float at 1, ret at 1; unfold ret at 1).
  do 4 (unfold io_bind at 1; unfold io_bind at 1; unfold input at 1;
        cbn [stdin stdout]; unfold float at 1, ret at 1).
  unfold io_bind at 1. unfold io_bind at 1. unfold input at 1.
  cbn [stdin stdout]. unfold lift at 1. rewrite Hflag.
  reflexivity.
Qed.

(** X21: a session in which the exhaust velocity typed is 0 stops with
    [ZeroDivisionError] when the cost is computed: the eight lines of the
    trip have been read, only the welcome line has been printed, and
    neither the loading nor the trajectory takes place. *)
Theorem rocket_main_zero_exhaust_velocity (c : console)
    (radius height_cone height_cyl velocity_i angle flight_time : R)
    (flag : line) (tax : Z) (rest : list line) :
  stdin c = Num radius :: Num height_cone :: Num height_cyl :: Num 0
              :: Num velocity_i :: Num angle :: Num flight_time :: flag :: rest ->
  int_of_line flag = Ok tax ->
  rocket_main py_str int_of_line c =
  (Raise ZeroDivisionError,
   mkConsole rest (stdout c ++ [Text "Welcome to the Rocket Simulation!"])).
Proof.
  intros Hin Hflag.
  rewrite (rocket_main_reads_trip c _ _ _ _ _ _ _ flag tax rest Hin Hflag).
  cbn zeta. unfold io_bind at 1. unfold lift at 1.
  unfold calculate_cost. now rewrite rocket_fuel_zero.
Qed.


End SessionFacts.

Lemma rocket_main_zero_exhaust_velocity_witness :
  rocket_main (fun _ => EmptyString) (fun _ => Ok 1%Z)
    (mkConsole [Num 5; Num 10; Num 15; Num 0; Num 3000; Num 0.785; Num 120;
                Num 1; Done] [])
  = (Raise ZeroDivisionError,
     mkConsole [Done] [Text "Welcome to the Rocket Simulation!"]).
Proof.
  apply (rocket_main_zero_exhaust_velocity (fun _ => EmptyString)
           (fun _ => Ok 1%Z)
           (mkConsole [Num 5; Num 10; Num 15; Num 0; Num 3000; Num 0.785;
                       Num 120; Num 1; Done] [])
           5 10 15 3000 0.785 120 (Num 1) 1 [Done]);
    reflexivity.
Defined.



